(** * News collector: a shallow embedding of the ingestion Lambda and its
      read helper.

    Source files embedded here:
    - [front/backend/new_data_collect/lambda_news_collector.py]
      ([lambda_handler], [download_and_upload_image],
       [extract_image_from_article], [get_news_from_dynamodb]);
    - [backend/news-api-service/main.py] ([startup_event]).

    Python [str] values are modelled as Rocq [string]s holding their UTF-8
    bytes; comparing two such strings byte by byte gives the same order as
    Python's comparison by code point. *)

From Stdlib Require Import String Ascii List ZArith Lia Bool.
From stdpp Require Import base option gmap strings.

Local Open Scope string_scope.
Local Open Scope Z_scope.

(** ** Python string primitives *)

Module Py.

(** [s.startswith(p)]. *)
Definition startswith (p s : string) : bool := String.prefix p s.

(** [sub in s]: some suffix of [s] starts with [sub]. *)
Fixpoint contains (sub s : string) : bool :=
  match s with
  | EmptyString => String.prefix sub EmptyString
  | String _ s' => String.prefix sub s || contains sub s'
  end.

(** [s.endswith(p)], used on the specification side only. *)
Fixpoint endswith (p s : string) : bool :=
  String.eqb p s ||
  match s with
  | EmptyString => false
  | String _ s' => endswith p s'
  end.

Definition lower_ascii (c : ascii) : ascii :=
  let n := nat_of_ascii c in
  if ((65 <=? n) && (n <=? 90))%nat then ascii_of_nat (n + 32) else c.

(** [s.lower()] on the ASCII range.  Outside ASCII the only code points
    whose lower-casing produces ASCII letters are U+0130 (which yields
    [i] followed by a combining mark) and U+212A (which yields [k]);
    neither can complete one of the extensions searched for below. *)
Fixpoint lower (s : string) : string :=
  match s with
  | EmptyString => EmptyString
  | String c s' => String (lower_ascii c) (lower s')
  end.

(** Truth value of an optional string: [None] and [''] are falsy. *)
Definition truthy (o : option string) : bool :=
  match o with
  | Some s => negb (String.eqb s "")
  | None => false
  end.

(** [a or b] on optional strings. *)
Definition or_ (a b : option string) : option string :=
  if truthy a then a else b.

(** [any(f(x) for x in l)]. *)
Definition any {A} (f : A -> bool) (l : list A) : bool := existsb f l.

End Py.

(** ** The parsed article page

    [BeautifulSoup(response.content, 'html.parser')] yields a tree of
    elements.  Only elements matter to [find]; text nodes are left out.
    Attribute values are kept as the strings written in the page. *)

#[warnings="-register-all"]
Inductive Tag : Type :=
  mkTag { tag_name : string;
          tag_attrs : gmap string string;
          tag_children : list Tag }.

(** [tag.get(key)]. *)
Definition Tag_get (t : Tag) (key : string) : option string :=
  tag_attrs t !! key.

(** First element, in document order, among [t] and its descendants that
    satisfies [p]. *)
Fixpoint find_from (p : Tag -> bool) (t : Tag) : option Tag :=
  if p t then Some t
  else (fix among (l : list Tag) : option Tag :=
          match l with
          | [] => None
          | c :: l' =>
              match find_from p c with
              | Some r => Some r
              | None => among l'
              end
          end) (tag_children t).

Fixpoint find_among (p : Tag -> bool) (l : list Tag) : option Tag :=
  match l with
  | [] => None
  | c :: l' =>
      match find_from p c with
      | Some r => Some r
      | None => find_among p l'
      end
  end.

(** [tag.find(...)] searches the descendants of [tag], not [tag] itself. *)
Definition Tag_find (p : Tag -> bool) (t : Tag) : option Tag :=
  find_among p (tag_children t).

(** The document object: its top-level elements. *)
Definition Soup := list Tag.

Definition soup_find (p : Tag -> bool) (soup : Soup) : option Tag :=
  find_among p soup.

(** A filter [{'class': re.compile(r'.*a.*|.*b.*|...')}]: the pattern is
    searched in the class value, so it matches exactly when the value
    contains one of the words (case-sensitively). *)
Definition class_matches (words : list string) (t : Tag) : bool :=
  match Tag_get t "class" with
  | Some c => Py.any (fun w => Py.contains w c) words
  | None => false
  end.

(** A filter [{key: value}] with a plain string. *)
Definition attr_is (key value : string) (t : Tag) : bool :=
  match Tag_get t key with
  | Some v => String.eqb v value
  | None => false
  end.

Definition named (n : string) (t : Tag) : bool := String.eqb (tag_name t) n.

(** ** ImageLocator: the loop of [extract_image_from_article] *)

Definition image_extensions : list string :=
  [".jpg"; ".jpeg"; ".png"; ".gif"; ".webp"].

Section Locator.

(** [urllib.parse.urljoin], a library function taken as a parameter; the
    loop calls it on the URL of a page that was fetched and on a source
    that starts with one slash. *)
Variable urljoin : string -> string -> string.

(** The list [img_patterns], built before the loop runs. *)
Definition img_patterns (soup : Soup) : list (option Tag) :=
  [ soup_find (fun t => named "img" t &&
                 class_matches ["article"; "news"; "content"; "photo"] t) soup;
    soup_find (fun t => named "meta" t && attr_is "property" "og:image" t) soup;
    soup_find (fun t => named "meta" t && attr_is "name" "twitter:image" t) soup;
    match soup_find (fun t => named "div" t &&
                       class_matches ["article"; "content"; "body"] t) soup with
    | Some d => Tag_find (named "img") d
    | None => None
    end;
    soup_find (named "img") soup ].

(** The attribute read off a matched element; [None] stands for the
    [continue] branch of an element that is neither [img] nor [meta]. *)
Definition tag_src (t : Tag) : option (option string) :=
  if named "img" t then Some (Py.or_ (Tag_get t "src") (Tag_get t "data-src"))
  else if named "meta" t then Some (Tag_get t "content")
  else None.

(** The three assignments to [image_url]; a source of any other shape
    leaves the variable as it was. *)
Definition absolutize (article_url src : string) (image_url : option string)
  : option string :=
  if Py.startswith "//" src then Some ("https:" ++ src)
  else if Py.startswith "/" src then Some (urljoin article_url src)
  else if Py.startswith "http" src then Some src
  else image_url.

(** [image_url and any(ext in image_url.lower() for ext in [...])]. *)
Definition is_valid_image_url (image_url : option string) : bool :=
  Py.truthy image_url &&
  match image_url with
  | Some u => Py.any (fun ext => Py.contains ext (Py.lower u)) image_extensions
  | None => false
  end.

(** [for img_tag in img_patterns: ...], with the variable [image_url]
    threaded through the iterations, followed by [return None]. *)
Fixpoint scan_patterns (article_url : string) (patterns : list (option Tag))
         (image_url : option string) : option string :=
  match patterns with
  | [] => None
  | None :: rest => scan_patterns article_url rest image_url
  | Some img_tag :: rest =>
      match tag_src img_tag with
      | None => scan_patterns article_url rest image_url
      | Some src =>
          if Py.truthy src then
            let image_url' :=
              match src with
              | Some s => absolutize article_url s image_url
              | None => image_url
              end in
            if is_valid_image_url image_url' then image_url'
            else scan_patterns article_url rest image_url'
          else scan_patterns article_url rest image_url
      end
  end.

(** The body of the [try] once the page has been fetched and parsed. *)
Definition locate_in_soup (article_url : string) (soup : Soup) : option string :=
  scan_patterns article_url (img_patterns soup) None.

End Locator.

(** ** Numbers and dates as Python prints them *)

Module Fmt.

Definition digit (d : Z) : ascii := ascii_of_nat (48 + Z.to_nat d).

Fixpoint digits (fuel : nat) (n : Z) (acc : string) : string :=
  let acc' := String (digit (n mod 10)) acc in
  match fuel with
  | O => acc'
  | S fuel' => if n <? 10 then acc' else digits fuel' (n / 10) acc'
  end.

(** [str(n)] for [n >= 0]; a number has no more decimal digits than
    binary ones, which bounds the recursion. *)
Definition d (n : Z) : string := digits (Z.to_nat (Z.log2 n)) n "".

Fixpoint zeros (k : nat) : string :=
  match k with
  | O => ""
  | S k' => String "0" (zeros k')
  end.

(** [s.zfill(width)] for a string of digits. *)
Definition zfill (width : nat) (s : string) : string :=
  zeros (width - String.length s) ++ s.

(** [f"{n:02d}"], also what [%m %d %H %M %S] print. *)
Definition d02 (n : Z) : string := zfill 2 (d n).

Definition d04 (n : Z) : string := zfill 4 (d n).

Definition d06 (n : Z) : string := zfill 6 (d n).

Definition hex_digit (h : Z) : ascii :=
  if h <? 10 then ascii_of_nat (48 + Z.to_nat h)
  else ascii_of_nat (87 + Z.to_nat h).

(** [k] lower-case hexadecimal digits of [n], most significant first
    ([ '%0kx' % n ] for [n < 16^k]). *)
Fixpoint hex (k : nat) (n : Z) : string :=
  match k with
  | O => ""
  | S k' => hex k' (n / 16) ++ String (hex_digit (n mod 16)) ""
  end.

End Fmt.

(** A naive [datetime] object. *)
Record datetime : Type :=
  mkDatetime { year : Z; month : Z; day : Z;
               hour : Z; minute : Z; second : Z; microsecond : Z }.

(** The ranges every [datetime] object satisfies; the year is taken with
    four digits, as it is for any reading of today's clock. *)
Definition datetime_ok (t : datetime) : Prop :=
  1000 <= year t <= 9999 /\ 1 <= month t <= 12 /\ 1 <= day t <= 31 /\
  0 <= hour t <= 23 /\ 0 <= minute t <= 59 /\ 0 <= second t <= 59 /\
  0 <= microsecond t <= 999999.

(** [t.strftime('%Y%m%d_%H%M%S_')]. *)
Definition strftime_uid (t : datetime) : string :=
  Fmt.d (year t) ++ Fmt.d02 (month t) ++ Fmt.d02 (day t) ++ "_" ++
  Fmt.d02 (hour t) ++ Fmt.d02 (minute t) ++ Fmt.d02 (second t) ++ "_".

(** [t.isoformat()]. *)
Definition isoformat (t : datetime) : string :=
  Fmt.d04 (year t) ++ "-" ++ Fmt.d02 (month t) ++ "-" ++ Fmt.d02 (day t) ++ "T" ++
  Fmt.d02 (hour t) ++ ":" ++ Fmt.d02 (minute t) ++ ":" ++ Fmt.d02 (second t) ++
  (if microsecond t =? 0 then "" else "." ++ Fmt.d06 (microsecond t)).

(** [str(u)] for a UUID given by its 128-bit integer. *)
Definition uuid_str (u : Z) : string :=
  let h := Fmt.hex 32 u in
  substring 0 8 h ++ "-" ++ substring 8 4 h ++ "-" ++ substring 12 4 h ++ "-" ++
  substring 16 4 h ++ "-" ++ substring 20 12 h.

(** Lines 74-75: [now.strftime('%Y%m%d_%H%M%S_') + str(uuid.uuid4())[:8]]. *)
Definition make_uid (now : datetime) (u : Z) : string :=
  strftime_uid now ++ substring 0 8 (uuid_str u).

(** Lines 78-81: [re.sub('<.*?>', '', text)].  Scanning from the left, a
    ['<'] starts a match when a ['>'] follows before the end of the line
    (the dot does not match a line feed); the match, which is the shortest
    one, is dropped and scanning resumes after it.  Any other character,
    and a ['<'] that starts no match, is kept. *)
Fixpoint clean_html_tags (text : string) : string :=
  match text with
  | EmptyString => EmptyString
  | String c rest =>
      let fix close (t : string) : option string :=
        match t with
        | EmptyString => None
        | String e t' =>
            if Ascii.eqb e ">" then Some (clean_html_tags t')
            else if Ascii.eqb e "010" then None
            else close t'
        end in
      if Ascii.eqb c "<" then
        match close rest with
        | Some cleaned => cleaned
        | None => String c (clean_html_tags rest)
        end
      else String c (clean_html_tags rest)
  end.

(** ** Data exchanged with the outside world *)

(** The arguments of one [requests.get] call. *)
Record request : Type :=
  mkRequest { req_url : string;
              req_params : list (string * string);
              req_headers : list (string * option string);
              req_timeout : option Z }.

(** What the code reads of a [requests] response. *)
Record response : Type :=
  mkResponse { status_code : Z;
               header_content_type : option string;
               content : string }.

(** The keyword arguments of [s3_client.put_object]. *)
Record put_object_args : Type :=
  mkPutObject { Bucket : string; Key : string; Body : string;
                ContentType : string; CacheControl : string }.

(** One element of [data['items']]; a field is [None] when the key is
    missing, and a string otherwise. *)
Record raw_item : Type :=
  mkRawItem { raw_title : option string;
              raw_originallink : option string;
              raw_link : option string;
              raw_description : option string;
              raw_pubDate : option string }.

(** The dictionary [news_item] written to the table. *)
Record news_item : Type :=
  mkNewsItem { uid : string; id : string; keyword : string; title : string;
               originallink : string; link : string; description : string;
               pubDate : string; image_url : option string;
               cloudfront_image_url : option string; collected_at : string;
               content_type : string; source : string }.

(** Exceptions, as far as the handlers tell them apart. *)
Inductive exn : Type :=
| RequestException
| ClientError (message : string)
| OtherException.

(** Every interaction with the outside world, latest first in a
    history. *)
Inductive event : Type :=
| EvNow
| EvUuid4
| EvGet (r : request)
| EvPutObject (a : put_object_args)
| EvPutItem (i : news_item)
| EvSleep (seconds : Z)
| EvDbConnect
| EvDbStatistics.

Definition history := list event.

(** One reading of the clock: the instant as [datetime.now()] reports it,
    in the time zone of the process, and the same instant in UTC. *)
Record instant : Type :=
  mkInstant { local_time : datetime; utc_time : datetime }.

(** The outside world answers each interaction; its answer may depend on
    everything that happened before. *)
Record World : Type :=
  mkWorld { environ : gmap string string;
            clock : history -> instant;
            random_uuid : history -> Z;
            http : history -> request -> exn + response;
            s3_put_object : history -> put_object_args -> option exn;
            table_put_item : history -> news_item -> option exn;
            db_connect : history -> option exn;
            db_get_statistics : history -> exn + Z }.

(** Library functions the code calls, taken as parameters. *)
Record Library : Type :=
  mkLibrary { (** [urllib.parse.urljoin] *)
              urljoin : string -> string -> string;
              (** [mimetypes.guess_extension] *)
              guess_extension : string -> option string;
              (** [BeautifulSoup(content, 'html.parser')] *)
              html_parser : string -> Soup;
              (** [response.json().get('items', [])]; [None] when decoding
                  or the lookup raises *)
              json_items : string -> option (list raw_item) }.

(** ** Control: state, exceptions, [try]/[except] *)

(** The history, and the two variables of [lambda_handler] that its loops
    update in place. *)
Record state : Type :=
  mkState { hist : history;
            collected_news : list news_item;
            total_collected : Z }.

Definition M (A : Type) : Type := state -> (exn + A) * state.

Definition ret {A} (a : A) : M A := fun st => (inr a, st).

Definition raise {A} (e : exn) : M A := fun st => (inl e, st).

Definition bind {A B} (m : M A) (k : A -> M B) : M B :=
  fun st =>
    match m st with
    | (inr a, st') => k a st'
    | (inl e, st') => (inl e, st')
    end.

(** [try: m  except ...: h e]; the handler returns [None] for an exception
    its [except] clauses do not name, which then propagates. *)
Definition try_except {A} (m : M A) (h : exn -> option (M A)) : M A :=
  fun st =>
    match m st with
    | (inr a, st') => (inr a, st')
    | (inl e, st') =>
        match h e with
        | Some handler => handler st'
        | None => (inl e, st')
        end
    end.

Declare Scope py_scope.
Delimit Scope py_scope with py.
Notation "x <- m ;; k" := (bind m (fun x => k))
  (at level 100, m at next level, right associativity) : py_scope.
Notation "m ;; k" := (bind m (fun _ => k))
  (at level 100, right associativity) : py_scope.

Definition push (e : event) (st : state) : state :=
  mkState (e :: hist st) (collected_news st) (total_collected st).

Definition record (e : event) : M unit := fun st => (inr tt, push e st).

(** [for x in l: body x]. *)
Fixpoint for_each {A} (l : list A) (body : A -> M unit) : M unit :=
  match l with
  | [] => ret tt
  | x :: l' => bind (body x) (fun _ => for_each l' body)
  end.

(** ** The program *)

Definition user_agent : string :=
  "Mozilla/5.0 (Windows NT 10.0; Win64; x64) AppleWebKit/537.36 (KHTML, like Gecko) Chrome/91.0.4472.124 Safari/537.36".

Definition search_url : string := "https://openapi.naver.com/v1/search/news.json".

Definition cloudfront_base : string := "https://d3nvut5aamy17o.cloudfront.net/".

Definition bitcoin : string := "비트코인".

(** The body of the returned dictionary. *)
Record summary : Type :=
  mkSummary { message : string;
              body_total_collected : Z;
              keywords_searched : list string;
              body_collected_at : string;
              dynamodb_table : string;
              dynamodb_region : string;
              sample_news : list news_item }.

Record lambda_result : Type :=
  mkResult { statusCode : Z; body : summary }.

(** Values a Lambda event or context may be. *)
#[warnings="-register-all"]
Inductive PyValue : Type :=
| PyNone
| PyBool (b : bool)
| PyInt (n : Z)
| PyStr (s : string)
| PyList (l : list PyValue)
| PyDict (d : list (string * PyValue)).

Section Program.

Variable lib : Library.
Variable w : World.

Local Open Scope py_scope.

(** *** Calls into the outside world *)

Definition datetime_now : M datetime :=
  fun st => (inr (local_time (clock w (hist st))), push EvNow st).

Definition uuid4 : M Z :=
  fun st => (inr (random_uuid w (hist st)), push EvUuid4 st).

Definition requests_get (r : request) : M response :=
  fun st => (http w (hist st) r, push (EvGet r) st).

(** [response.raise_for_status()]. *)
Definition raise_for_status (r : response) : M unit :=
  if (400 <=? status_code r) && (status_code r <? 600)
  then raise RequestException else ret tt.

Definition put_object (a : put_object_args) : M unit :=
  fun st =>
    (match s3_put_object w (hist st) a with
     | Some e => inl e
     | None => inr tt
     end, push (EvPutObject a) st).

Definition put_item (i : news_item) : M unit :=
  fun st =>
    (match table_put_item w (hist st) i with
     | Some e => inl e
     | None => inr tt
     end, push (EvPutItem i) st).

Definition time_sleep (seconds : Z) : M unit := record (EvSleep seconds).

(** *** [extract_image_from_article] *)

Definition extract_image_from_article (article_url : string) : M (option string) :=
  try_except
    (response <- requests_get
                   (mkRequest article_url [] [("User-Agent", Some user_agent)] (Some 10)) ;;
     raise_for_status response ;;
     let soup := html_parser lib (content response) in
     ret (locate_in_soup (urljoin lib) article_url soup))
    (fun _ => Some (ret None)).

(** *** [download_and_upload_image]

    The call [urlparse(image_url)], whose result the function does not use,
    is left out: the URL has just been accepted by [requests.get]. *)

Definition s3_key_for (now : datetime) (uid file_extension : string) : string :=
  "images/news/" ++ Fmt.d (year now) ++ "/" ++ Fmt.d02 (month now) ++ "/" ++
  Fmt.d02 (day now) ++ "/" ++ uid ++ file_extension.

Definition download_and_upload_image (image_url uid : string) : M (option string) :=
  try_except
    (response <- requests_get
                   (mkRequest image_url [] [("User-Agent", Some user_agent)] (Some 30)) ;;
     raise_for_status response ;;
     let content_type := default "" (header_content_type response) in
     if negb (Py.contains "image" content_type) then ret None
     else
       let file_extension :=
         default ".jpg" (Py.or_ (guess_extension lib content_type) (Some ".jpg")) in
       now <- datetime_now ;;
       let s3_key := s3_key_for now uid file_extension in
       put_object (mkPutObject "ioi-contents-bukket" s3_key (content response)
                               content_type "max-age=31536000") ;;
       ret (Some (cloudfront_base ++ s3_key)))
    (fun _ => Some (ret None)).

(** *** [lambda_handler] *)

Definition search_headers : list (string * option string) :=
  [ ("X-Naver-Client-Id", environ w !! "NAVER_CLIENT_ID");
    ("X-Naver-Client-Secret", environ w !! "NAVER_CLIENT_SECRET");
    ("Content-Type", Some "application/json") ].

(** Lines 73-116: everything done for one search result before it is
    written. *)
Definition prepare_item (keyword : string) (item : raw_item) : M news_item :=
  now <- datetime_now ;;
  u <- uuid4 ;;
  let uid := make_uid now u in
  let original_link := default "" (raw_originallink item) in
  images <- (if Py.truthy (Some original_link) then
               image_url <- extract_image_from_article original_link ;;
               if Py.truthy image_url then
                 cloudfront_image_url <-
                   download_and_upload_image (default "" image_url) uid ;;
                 ret (image_url, cloudfront_image_url)
               else ret (image_url, None)
             else ret (None, None)) ;;
  id <- uuid4 ;;
  collected <- datetime_now ;;
  ret (mkNewsItem uid (uuid_str id) keyword
                  (clean_html_tags (default "" (raw_title item)))
                  original_link
                  (default "" (raw_link item))
                  (clean_html_tags (default "" (raw_description item)))
                  (default "" (raw_pubDate item))
                  images.1 images.2
                  (isoformat collected) "news" "naver_api").

(** [collected_news.append(news_item); total_collected += 1]. *)
Definition count_item (i : news_item) : M unit :=
  fun st => (inr tt, mkState (hist st) (collected_news st ++ [i]) (total_collected st + 1)).

(** Lines 72-134: the body of [for item in items]. *)
Definition process_item (keyword : string) (item : raw_item) : M unit :=
  i <- prepare_item keyword item ;;
  stored <- try_except (put_item i ;; ret true)
                       (fun e => match e with
                                 | ClientError _ => Some (ret false)
                                 | _ => None
                                 end) ;;
  if stored : bool then count_item i else ret tt.

(** Lines 50-144: the body of [for keyword in keywords]. *)
Definition process_keyword (keyword : string) : M unit :=
  let display_count := if String.eqb keyword bitcoin then 50 else 10 in
  let params := [ ("query", keyword); ("display", Fmt.d display_count);
                  ("start", "1"); ("sort", "date") ] in
  try_except
    (response <- requests_get (mkRequest search_url params search_headers None) ;;
     if status_code response =? 200 then
       match json_items lib (content response) with
       | Some items => for_each items (process_item keyword)
       | None => raise OtherException
       end
     else ret tt)
    (fun _ => Some (ret tt)) ;;
  time_sleep 1.

(** [collected_news = []] and [total_collected = 0]. *)
Definition init_locals : M unit :=
  fun st => (inr tt, mkState (hist st) [] 0).

(** The function from line 26 on: what it does once lines 23-24 have built
    the table handle.  Those two lines, which no [try] encloses, are
    [connect_table] below, and the whole invocation is
    [invoke_lambda_handler]. *)
Definition lambda_handler (event context : PyValue) : M lambda_result :=
  let keywords := [bitcoin] in
  init_locals ;;
  _ <- datetime_now ;;
  for_each keywords process_keyword ;;
  finished <- datetime_now ;;
  fun st =>
    (inr (mkResult 200
            (mkSummary "뉴스 수집 및 DynamoDB 저장 완료"
                       (total_collected st) keywords (isoformat finished)
                       "ioi_contents_table" "ap-northeast-3"
                       (take 3 (collected_news st)))), st).

(** *** [startup_event] of the API service *)

Definition db_manager_connect : M unit :=
  fun st =>
    (match db_connect w (hist st) with
     | Some e => inl e
     | None => inr tt
     end, push EvDbConnect st).

Definition db_manager_get_statistics : M Z :=
  fun st => (db_get_statistics w (hist st), push EvDbStatistics st).

Definition startup_event : M unit :=
  try_except
    (db_manager_connect ;;
     _ <- db_manager_get_statistics ;;
     ret tt)
    (fun _ => Some (ret tt)).

End Program.

(** ** [get_news_from_dynamodb] *)

(** An item as the scan returns it, cut down by the projection expression
    [uid, id, title, description, keyword, pubDate, collected_at,
    originallink, image_url]. *)
Record scanned_item : Type :=
  mkScanned { s_uid : string; s_id : string; s_title : string;
              s_description : string; s_keyword : string; s_pubDate : string;
              s_collected_at : string; s_originallink : string;
              s_image_url : option string }.

Definition project (i : news_item) : scanned_item :=
  mkScanned (uid i) (id i) (title i) (description i) (keyword i) (pubDate i)
            (collected_at i) (originallink i) (image_url i).

(** [table.scan(Limit=limit, ProjectionExpression=...)] on a table whose
    items the scan visits in the order of the list [table]: the service
    stops after [limit] items.  The order is the store's own (by hash of
    the partition key), not the order of the keys.  This is the answer of
    one call for a limit of at least one (the client refuses a limit of
    zero before any request) on a table that one call reads in full (a
    call reads at most 1 MB); it is used below at such limits and tables
    only. *)
Definition table_scan (table : list news_item) (limit : nat) : list scanned_item :=
  map project (take limit table).

(** [sorted(items, key=lambda x: x.get('uid', ''), reverse=True)]: a
    stable sort, greatest [uid] first.  Every item has a [uid], the
    partition key. *)
Fixpoint insert_by_uid (x : scanned_item) (l : list scanned_item) : list scanned_item :=
  match l with
  | [] => [x]
  | y :: l' =>
      if String.ltb (s_uid x) (s_uid y) then y :: insert_by_uid x l'
      else x :: y :: l'
  end.

Definition sorted_by_uid_reverse (items : list scanned_item) : list scanned_item :=
  foldr insert_by_uid [] items.

Inductive read_result : Type :=
| ReadOk (total_items : nat) (news_items : list scanned_item)
| ReadFailed (error : string).

Definition read_status (r : read_result) : Z :=
  match r with
  | ReadOk _ _ => 200
  | ReadFailed _ => 500
  end.

(** [scan] is the call [table.scan]; it answers with the items or with the
    message of a [ClientError]. *)
Definition get_news_from_dynamodb (scan : nat -> string + list scanned_item)
           (limit : nat) : read_result :=
  match scan limit with
  | inr items =>
      let sorted_items := sorted_by_uid_reverse items in
      ReadOk (length sorted_items) sorted_items
  | inl msg => ReadFailed msg
  end.

(** ** Notions the statements below use *)

(** The candidate URL of one strategy taken alone: the attribute read off
    the element, made absolute when it has one of the three shapes. *)
Definition candidate (urljoin : string -> string -> string) (article_url : string)
           (found : option Tag) : option string :=
  match found with
  | None => None
  | Some t =>
      match tag_src t with
      | Some (Some src) =>
          if String.eqb src "" then None
          else if Py.startswith "//" src then Some ("https:" ++ src)
          else if Py.startswith "/" src then Some (urljoin article_url src)
          else if Py.startswith "http" src then Some src
          else None
      | _ => None
      end
  end.

(** The URL contains one of the extensions, whatever the case of its
    letters and wherever in the URL. *)
Definition mentions_image_extension (u : string) : bool :=
  negb (String.eqb u "") &&
  existsb (fun ext => Py.contains ext (Py.lower u)) image_extensions.

(** First candidate, in order, that passes the test. *)
Fixpoint first_accepted (candidates : list (option string)) : option string :=
  match candidates with
  | [] => None
  | Some u :: rest => if mentions_image_extension u then Some u else first_accepted rest
  | None :: rest => first_accepted rest
  end.

(** The part of [s] before the first occurrence of [c]. *)
Fixpoint before (c : ascii) (s : string) : string :=
  match s with
  | EmptyString => EmptyString
  | String a s' => if Ascii.eqb a c then EmptyString else String a (before c s')
  end.

(** The suffix of [s] that starts at its first ['/'] (empty if none). *)
Fixpoint from_slash (s : string) : string :=
  match s with
  | EmptyString => EmptyString
  | String a s' => if Ascii.eqb a "/" then s else from_slash s'
  end.

(** What follows the first ["//"] of [s], if any. *)
Fixpoint after_slashes (s : string) : option string :=
  match s with
  | EmptyString => None
  | String a s' =>
      if Py.startswith "//" s then Some (substring 2 (String.length s - 2) s)
      else after_slashes s'
  end.

(** The path of an absolute URL [scheme://host/path?query#fragment]. *)
Definition url_path (u : string) : string :=
  let u' := before "?" (before "#" u) in
  match after_slashes u' with
  | Some rest => from_slash rest
  | None => u'
  end.

(** The path ends, whatever the case of its letters, in one of the
    extensions. *)
Definition path_has_image_extension (u : string) : bool :=
  existsb (fun ext => Py.endswith ext (Py.lower (url_path u))) image_extensions.

(** [s] holds a ['<'] with a ['>'] somewhere after it. *)
Fixpoint has_markup_tag (s : string) : bool :=
  match s with
  | EmptyString => false
  | String c s' =>
      (Ascii.eqb c "<" && Py.contains ">" s') || has_markup_tag s'
  end.

(** Order of two naive [datetime] objects down to the second. *)
Definition seconds_key (t : datetime) : list Z :=
  [year t; month t; day t; hour t; minute t; second t].

Fixpoint lex_lt (a b : list Z) : Prop :=
  match a, b with
  | x :: a', y :: b' => x < y \/ (x = y /\ lex_lt a' b')
  | _, _ => False
  end.

Definition earlier_second (t1 t2 : datetime) : Prop :=
  lex_lt (seconds_key t1) (seconds_key t2).

(** The [limit] items with the greatest [uid]s of the whole table,
    greatest first. *)
Definition most_recent (table : list news_item) (limit : nat) : list scanned_item :=
  take limit (sorted_by_uid_reverse (map project table)).

(** The search request of a keyword, as [lambda_handler] builds it. *)
Definition search_request (w : World) (keyword : string) : request :=
  mkRequest search_url
            [ ("query", keyword);
              ("display", Fmt.d (if String.eqb keyword bitcoin then 50 else 10));
              ("start", "1"); ("sort", "date") ]
            (search_headers w) None.

(** The search for a keyword fails: the transport raises, or the status
    is not 200. *)
Definition search_fails (w : World) (keyword : string) (st : state) : Prop :=
  match http w (hist st) (search_request w keyword) with
  | inl _ => True
  | inr r => status_code r <> 200
  end.

Definition image_request (image_url : string) : request :=
  mkRequest image_url [] [("User-Agent", Some user_agent)] (Some 30).

Definition article_request (article_url : string) : request :=
  mkRequest article_url [] [("User-Agent", Some user_agent)] (Some 10).

Definition status_ok (r : response) : Prop :=
  (400 <=? status_code r) && (status_code r <? 600) = false.

(** The two variables of [lambda_handler] are as they were. *)
Definition same_locals (st st' : state) : Prop :=
  collected_news st' = collected_news st /\ total_collected st' = total_collected st.

(** A number below 100 on two digits, and one below 10000 on four. *)
Definition two_digits (n : Z) : string :=
  String (Fmt.digit (n / 10)) (String (Fmt.digit (n mod 10)) "").

Definition four_digits (n : Z) : string :=
  String (Fmt.digit (n / 10 / 10 / 10))
    (String (Fmt.digit (n / 10 / 10 mod 10))
       (String (Fmt.digit (n / 10 mod 10)) (String (Fmt.digit (n mod 10)) ""))).

(** What follows the first ['>'] of the current line, if there is one. *)
Fixpoint close_tag (t : string) : option string :=
  match t with
  | EmptyString => None
  | String e t' =>
      if Ascii.eqb e ">" then Some t'
      else if Ascii.eqb e "010" then None
      else close_tag t'
  end.

(** The text holds no line feed. *)
Definition one_line (s : string) : Prop :=
  Py.contains (String "010" "") s = false.

(** Adjacent items never go up in [uid]. *)
Fixpoint descending (l : list scanned_item) : Prop :=
  match l with
  | x :: ((y :: _) as l') => String.ltb (s_uid x) (s_uid y) = false /\ descending l'
  | _ => True
  end.

(** ** Further notions *)

(** [s] holds a ['<'] with a ['>'] after it on the same line: a match of
    the pattern [<.*?>]. *)
Fixpoint has_line_tag (s : string) : bool :=
  match s with
  | EmptyString => false
  | String c s' =>
      (Ascii.eqb c "<" && match close_tag s' with Some _ => true | None => false end)
      || has_line_tag s'
  end.

(** [q] holds of an element and of everything below it. *)
Fixpoint every_element (q : Tag -> bool) (t : Tag) : bool :=
  q t && forallb (every_element q) (tag_children t).

(** The page has no [img] and no [meta] element. *)
Definition no_picture_element (soup : Soup) : bool :=
  forallb (every_element (fun t => negb (named "img" t) && negb (named "meta" t))) soup.

(** Number of pauses in a history. *)
Fixpoint sleeps (h : history) : nat :=
  match h with
  | [] => O
  | EvSleep _ :: h' => S (sleeps h')
  | _ :: h' => sleeps h'
  end.

(** A computation leaves every state related to the one it started in,
    whether it returns or raises. *)
Definition keeps {A} (R : state -> state -> Prop) (m : M A) : Prop :=
  forall st, R st (m st).2.

(** The history only grew and the two variables are as they were. *)
Definition grows (st st' : state) : Prop :=
  same_locals st st' /\ exists l, hist st' = (l ++ hist st)%list.

(** The number of pauses is as it was. *)
Definition same_sleeps (st st' : state) : Prop :=
  sleeps (hist st') = sleeps (hist st).

(** The counter agrees with the list it counts. *)
Definition counted (st : state) : Prop :=
  total_collected st = Z.of_nat (length (collected_news st)).

(** Every item of [collected_news] was passed to [put_item], which
    accepted it, and carries the two constant fields. *)
Definition all_written (w : World) (st : state) : Prop :=
  forall i, In i (collected_news st) ->
            (exists h1 h2, hist st = (h1 ++ EvPutItem i :: h2)%list /\
                           table_put_item w h2 i = None) /\
            content_type i = "news" /\ source i = "naver_api".

(** A property of states, as a relation between the state before and the
    state after. *)
Definition maintains (P : state -> Prop) (st st' : state) : Prop := P st -> P st'.

(** Lines 23-24, [boto3.resource('dynamodb', ...)] and [.Table(...)]:
    they build a handle from the configuration of the process and send
    nothing to the store; on a broken configuration (a profile that does
    not exist, say) they raise.  [handle] is the exception they raise in
    this process, if any. *)
Definition connect_table (handle : option exn) : M unit :=
  match handle with
  | Some e => raise e
  | None => ret tt
  end.

(** One invocation of the Lambda function, from line 13: the table handle
    is built outside every [try], then the run proper starts. *)
Definition invoke_lambda_handler (lib : Library) (w : World) (handle : option exn)
           (event context : PyValue) : M lambda_result :=
  bind (connect_table handle) (fun _ => lambda_handler lib w event context).

(** The content type names an image type: [image/...], letters of either
    case. *)
Definition indicates_image (content_type : string) : bool :=
  Py.startswith "image/" (Py.lower content_type).


(** [put_item] was called at some point of the history. *)
Definition has_put (h : history) : bool :=
  existsb (fun e => match e with EvPutItem _ => true | _ => false end) h.

(** ** Concrete libraries and worlds, for examples *)

Module Demo.

(** Scheme and host of an absolute URL: what comes before its path. *)
Definition origin (base : string) : string :=
  let no_query := before "?" (before "#" base) in
  substring 0 (String.length no_query - String.length (url_path base)) base.

(** [urljoin] on a root-relative reference without dot segments. *)
Definition join (base ref : string) : string := origin base ++ ref.

Definition extension_of (content_type : string) : option string :=
  if String.eqb content_type "image/jpeg" then Some ".jpg"
  else if String.eqb content_type "image/png" then Some ".png"
  else if String.eqb content_type "image/gif" then Some ".gif"
  else if String.eqb content_type "image/webp" then Some ".webp"
  else None.

Definition el (name : string) (attrs : list (string * string))
           (children : list Tag) : Tag :=
  mkTag name (list_to_map attrs) children.

(** A page that announces its picture in an [og:image] element:
    [<html><head><meta charset='utf-8'>
     <meta property='og:image' content='https://img.example.com/a1.png'></head>
     <body><div class='article-body'><p></p><img src='/static/logo.svg'></div>
     </body></html>]. *)
Definition page_og : Soup :=
  [ el "html" []
      [ el "head" []
          [ el "meta" [("charset", "utf-8")] [];
            el "meta" [("property", "og:image");
                       ("content", "https://img.example.com/a1.png")] [] ];
        el "body" []
          [ el "div" [("class", "article-body")]
              [ el "p" [] [];
                el "img" [("src", "/static/logo.svg")] [] ] ] ] ].

(** A page whose picture is served by a script:
    [<html><head><meta property='og:image'
     content='https://news.example.com/image.php?file=photo.jpg'></head>
     <body></body></html>]. *)
Definition page_script : Soup :=
  [ el "html" []
      [ el "head" []
          [ el "meta" [("property", "og:image");
                       ("content", "https://news.example.com/image.php?file=photo.jpg")] [] ];
        el "body" [] [] ] ].

(** A page with a classed picture given by a root-relative address:
    [<html><body><img class='news-photo' src='/img/a2.jpg'></body></html>]. *)
Definition page_root : Soup :=
  [ el "html" []
      [ el "body" []
          [ el "img" [("class", "news-photo"); ("src", "/img/a2.jpg")] [] ] ] ].

(** The parser, on the three page sources the servers below send. *)
Definition parse (source : string) : Soup :=
  if String.eqb source "<og>" then page_og
  else if String.eqb source "<script>" then page_script
  else if String.eqb source "<root>" then page_root
  else [].

Definition item1 : raw_item :=
  mkRawItem (Some "<b>Bitcoin</b> rallies") (Some "https://news.example.com/a1")
            (Some "https://n.news.example.org/1") (Some "Prices <b>rose</b> again")
            (Some "Mon, 06 May 2024 07:00:00 +0900").

Definition item2 : raw_item :=
  mkRawItem (Some "Miners &amp; markets") (Some "")
            (Some "https://n.news.example.org/2") (Some "No picture here")
            (Some "Mon, 06 May 2024 06:00:00 +0900").

(** A title whose markup has a line break inside a tag. *)
Definition broken_title : string :=
  "<a" ++ String "010" "" ++ "href='https://example.com'>Bitcoin</a> rallies".

Definition item3 : raw_item :=
  mkRawItem (Some broken_title) (Some "") (Some "https://n.news.example.org/3")
            (Some "Plain text") (Some "Mon, 06 May 2024 05:00:00 +0900").

(** The decoder, on the bodies the search API below sends. *)
Definition items_of (body : string) : option (list raw_item) :=
  if String.eqb body "{two}" then Some [item1; item2]
  else if String.eqb body "{plain}" then Some [item2; item2]
  else if String.eqb body "{}" then Some []
  else None.

Definition lib : Library := mkLibrary join extension_of parse items_of.

Definition credentials : gmap string string :=
  {[ "NAVER_CLIENT_ID" := "client"; "NAVER_CLIENT_SECRET" := "secret" ]}.

Definition has_credentials (r : request) : bool :=
  forallb (fun h => match h.2 with Some _ => true | None => false end) (req_headers r).

(** The servers: the search API wants credentials and then answers with
    [search]; three article pages; one picture; one address that serves
    an error page with status 200. *)
Definition servers (search : exn + response) (r : request) : exn + response :=
  if String.eqb (req_url r) search_url then
    if has_credentials r then search
    else inr (mkResponse 401 (Some "application/json") "{errorCode}")
  else if String.eqb (req_url r) "https://news.example.com/a1" then
    inr (mkResponse 200 (Some "text/html") "<og>")
  else if String.eqb (req_url r) "https://news.example.com/a2" then
    inr (mkResponse 200 (Some "text/html") "<root>")
  else if String.eqb (req_url r) "https://news.example.com/a3" then
    inr (mkResponse 200 (Some "text/html") "<script>")
  else if String.eqb (req_url r) "https://img.example.com/a1.png" then
    inr (mkResponse 200 (Some "image/png") "PNG-bytes")
  else if String.eqb (req_url r) "https://img.example.com/gone.png" then
    inr (mkResponse 200 (Some "text/html") "<html>not found</html>")
  else inl RequestException.

(** 6 May 2024, 07:08:09, in a process whose zone is UTC. *)
Definition morning : instant :=
  let t := mkDatetime 2024 5 6 7 8 9 0 in mkInstant t t.

(** 1 January 2024, 20:00:00 UTC, read in Seoul (UTC+9). *)
Definition seoul_evening : instant :=
  mkInstant (mkDatetime 2024 1 2 5 0 0 0) (mkDatetime 2024 1 1 20 0 0 0).

(** 3 November 2024 in New York: 05:30:00 UTC is 01:30:00 in daylight
    time, and forty minutes later 06:10:00 UTC is 01:10:00 in standard
    time. *)
Definition before_clocks_change : instant :=
  mkInstant (mkDatetime 2024 11 3 1 30 0 0) (mkDatetime 2024 11 3 5 30 0 0).

Definition after_clocks_change : instant :=
  mkInstant (mkDatetime 2024 11 3 1 10 0 0) (mkDatetime 2024 11 3 6 10 0 0).

(** A clock that passes the change of clocks while the first item is
    being handled: the first four interactions of a run fall before
    it. *)
Definition new_york_clock (h : history) : instant :=
  if (length h <? 4)%nat then before_clocks_change else after_clocks_change.

Definition world (env : gmap string string) (clk : history -> instant)
           (search : exn + response) (put : news_item -> option exn)
           (connect : option exn) : World :=
  mkWorld env clk
          (fun h => 0x12345678abcdef0123456789abcdef01 + Z.of_nat (length h) * 2 ^ 96)
          (fun _ => servers search)
          (fun _ _ => None)
          (fun _ => put)
          (fun _ => connect)
          (fun _ => inr 25).

Definition found (body : string) : exn + response :=
  inr (mkResponse 200 (Some "application/json") body).

(** Everything works. *)
Definition fine : World :=
  world credentials (fun _ => morning) (found "{two}") (fun _ => None) None.

(** No credentials in the environment, and a store that cannot be
    reached. *)
Definition misconfigured : World :=
  world ∅ (fun _ => morning) (found "{two}") (fun _ => None) (Some OtherException).

(** The search API refuses the request. *)
Definition forbidden : World :=
  world credentials (fun _ => morning)
        (inr (mkResponse 403 (Some "application/json") "{errorCode}"))
        (fun _ => None) None.

(** The table rejects every item that has a picture. *)
Definition throttled : World :=
  world credentials (fun _ => morning) (found "{two}")
        (fun i => match image_url i with
                  | Some _ => Some (ClientError "ProvisionedThroughputExceededException")
                  | None => None
                  end) None.

Definition in_seoul : World :=
  world credentials (fun _ => seoul_evening) (found "{two}") (fun _ => None) None.

Definition in_new_york : World :=
  world credentials new_york_clock (found "{plain}") (fun _ => None) None.

Definition start : state := mkState [] [] 0.

(** The event [test_local] passes. *)
Definition test_event : PyValue :=
  PyDict [("test", PyBool true); ("keywords", PyList [PyStr "IT"])].

(** Three stored items, in the order a scan visits them. *)
Definition stored (u : string) : news_item :=
  mkNewsItem u "id" bitcoin "title" "" "" "description" "" None None "" "news" "naver_api".

Definition table : list news_item :=
  [ stored "20240506_070809_aaaaaaaa";
    stored "20240506_070810_bbbbbbbb";
    stored "20240506_070811_cccccccc" ].

(** The table cannot be reached: [put_item] fails before any answer of
    the service. *)
Definition unreachable_table : World :=
  world credentials (fun _ => morning) (found "{two}")
        (fun _ => Some OtherException) None.

(** The search finds nothing. *)
Definition nothing_found : World :=
  world credentials (fun _ => morning) (found "{}") (fun _ => None) None.

(** Object storage refuses every upload. *)
Definition no_storage : World :=
  mkWorld credentials (fun _ => morning) (fun _ => 7)
          (fun _ => servers (found "{two}"))
          (fun _ _ => Some (ClientError "AccessDenied"))
          (fun _ _ => None) (fun _ => None) (fun _ => inr 25).

(** A page of text only:
    [<html><body><div class='content'><p></p></div></body></html>]. *)
Definition page_text : Soup :=
  [ el "html" [] [ el "body" [] [ el "div" [("class", "content")] [ el "p" [] [] ] ] ] ].

(** A library whose parser knows that page too, and a world in which
    every address serves it. *)
Definition text_lib : Library :=
  mkLibrary join extension_of
            (fun source => if String.eqb source "<text>" then page_text else parse source)
            items_of.

Definition text_only : World :=
  mkWorld credentials (fun _ => morning) (fun _ => 7)
          (fun _ _ => inr (mkResponse 200 (Some "text/html") "<text>"))
          (fun _ _ => None) (fun _ _ => None) (fun _ => None) (fun _ => inr 25).




(** A registry: every address serves a container manifest, whose content
    type is not an image type and contains the letters [image]. *)
Definition registry : World :=
  mkWorld credentials (fun _ => morning) (fun _ => 7)
          (fun _ _ => inr (mkResponse 200
                             (Some "application/vnd.oci.image.manifest.v1+json")
                             "{manifest}"))
          (fun _ _ => None) (fun _ _ => None) (fun _ => None) (fun _ => inr 25).

(** The connection to the table fails on the first write and works from
    then on. *)
Definition flaky_table : World :=
  mkWorld credentials (fun _ => morning)
          (fun h => 0x12345678abcdef0123456789abcdef01 + Z.of_nat (length h) * 2 ^ 96)
          (fun _ => servers (found "{two}"))
          (fun _ _ => None)
          (fun h _ => if has_put h then None else Some OtherException)
          (fun _ => None) (fun _ => inr 25).

End Demo.

(** ** Properties of the image locator *)

Section LocatorFacts.

Variable urljoin : string -> string -> string.
Variable article_url : string.

Lemma is_valid_image_url_Some (u : string) :
  is_valid_image_url (Some u) = mentions_image_extension u.
Proof. reflexivity. Qed.

(** The variable [image_url] survives from one iteration to the next, but
    a value it carries over has already failed the test, so the loop
    computes the first accepted candidate. *)
Lemma scan_patterns_first_accepted (patterns : list (option Tag)) :
  forall image_url,
    is_valid_image_url image_url = false ->
    scan_patterns urljoin article_url patterns image_url =
    first_accepted (map (candidate urljoin article_url) patterns).
Proof.
  induction patterns as [|[t|] rest IH]; intros image_url Hstale; simpl.
  - reflexivity.
  - destruct (tag_src t) as [[src|]|] eqn:Hsrc; simpl.
    + destruct (String.eqb_spec src "") as [->|Hne]; simpl.
      * now apply IH.
      * replace (negb (src =? "")%string) with true
          by (symmetry; apply negb_true_iff, String.eqb_neq, Hne).
        unfold absolutize.
        destruct (Py.startswith "//" src); [|destruct (Py.startswith "/" src);
          [|destruct (Py.startswith "http" src)]];
          rewrite ?is_valid_image_url_Some;
          try (destruct (mentions_image_extension _) eqn:Hacc;
               [reflexivity | apply IH; rewrite is_valid_image_url_Some; exact Hacc]).
        rewrite Hstale. now apply IH.
    + now apply IH.
    + now apply IH.
  - now apply IH.
Qed.

Lemma locate_in_soup_first_accepted (soup : Soup) :
  locate_in_soup urljoin article_url soup =
  first_accepted (map (candidate urljoin article_url) (img_patterns soup)).
Proof. apply scan_patterns_first_accepted. reflexivity. Qed.

Lemma first_accepted_Some (cands : list (option string)) (u : string) :
  first_accepted cands = Some u ->
  In (Some u) cands /\ mentions_image_extension u = true.
Proof.
  induction cands as [|[c|] rest IH]; simpl; intros H.
  - discriminate.
  - destruct (mentions_image_extension c) eqn:Hc.
    + injection H as ->. split; [now left | exact Hc].
    + destruct (IH H) as [Hin Hu]. split; [now right | exact Hu].
  - destruct (IH H) as [Hin Hu]. split; [now right | exact Hu].
Qed.

Lemma first_accepted_None (cands : list (option string)) :
  first_accepted cands = None ->
  forall u, In (Some u) cands -> mentions_image_extension u = false.
Proof.
  induction cands as [|[c|] rest IH]; simpl; intros H u Hin.
  - contradiction.
  - destruct (mentions_image_extension c) eqn:Hc; [discriminate|].
    destruct Hin as [Heq|Hin]; [injection Heq as <-; exact Hc | now apply IH].
  - destruct Hin as [Heq|Hin]; [discriminate | now apply IH].
Qed.


End LocatorFacts.

(** ** The two helpers never raise *)

Lemma same_locals_refl st : same_locals st st.
Proof. split; reflexivity. Qed.

Lemma same_locals_trans st1 st2 st3 :
  same_locals st1 st2 -> same_locals st2 st3 -> same_locals st1 st3.
Proof. intros [? ?] [? ?]. split; congruence. Qed.

Lemma same_locals_push e st : same_locals st (push e st).
Proof. split; reflexivity. Qed.

Create HintDb locals.

#[local] Hint Resolve same_locals_refl same_locals_push : locals.

Ltac unfold_calls :=
  unfold requests_get, raise_for_status, datetime_now, uuid4, put_object,
    put_item, time_sleep, record.

Ltac unfold_monad := unfold bind, try_except, ret, raise.

Section HelperFacts.

Variable lib : Library.
Variable w : World.

(** What [extract_image_from_article] returns, case by case: one request
    is made, and every failure ends in [None]. *)
Lemma extract_image_from_article_eq (article_url : string) (st : state) :
  extract_image_from_article lib w article_url st =
  (inr match http w (hist st) (article_request article_url) with
       | inr response =>
           if (400 <=? status_code response) && (status_code response <? 600)
           then None
           else locate_in_soup (urljoin lib) article_url
                               (html_parser lib (content response))
       | inl _ => None
       end,
   push (EvGet (article_request article_url)) st).
Proof.
  unfold extract_image_from_article, article_request.
  unfold_monad. unfold_calls. unfold_monad.
  destruct (http w (hist st) _) as [e|response]; [reflexivity|].
  destruct ((400 <=? status_code response) && (status_code response <? 600));
    reflexivity.
Qed.

Lemma download_and_upload_image_returns (image_url uid : string) (st : state) :
  exists r st',
    download_and_upload_image lib w image_url uid st = (inr r, st') /\
    same_locals st st'.
Proof.
  unfold download_and_upload_image.
  unfold_monad. unfold_calls. unfold_monad.
  destruct (http w (hist st) _) as [e|response];
    [eexists _, _; split; [reflexivity | auto with locals]|].
  destruct ((400 <=? status_code response) && (status_code response <? 600));
    [eexists _, _; split; [reflexivity | auto with locals]|].
  destruct (negb (Py.contains "image" _));
    [eexists _, _; split; [reflexivity | auto with locals]|].
  simpl. destruct (s3_put_object w _ _);
    eexists _, _; (split; [reflexivity | split; reflexivity]).
Qed.

End HelperFacts.

(** ** Running the handler *)

Lemma bind_run {A B} (m : M A) (k : A -> M B) (st st' : state) (a : A) :
  m st = (inr a, st') -> bind m k st = k a st'.
Proof. intros H. unfold bind. now rewrite H. Qed.

Lemma bind_raise {A B} (m : M A) (k : A -> M B) (st st' : state) (e : exn) :
  m st = (inl e, st') -> bind m k st = (inl e, st').
Proof. intros H. unfold bind. now rewrite H. Qed.

(** A [try] whose handler catches everything and returns normally does
    not raise. *)
Lemma try_except_all (m : M unit) (st : state) :
  exists st', try_except m (fun _ => Some (ret tt)) st = (inr tt, st').
Proof.
  unfold try_except. destruct (m st) as [[e|[]] st']; eexists; reflexivity.
Qed.

Section HandlerFacts.

Variable lib : Library.
Variable w : World.

Lemma prepare_item_returns (k : string) (item : raw_item) (st : state) :
  exists i st',
    prepare_item lib w k item st = (inr i, st') /\
    same_locals st st' /\
    uid i = make_uid (local_time (clock w (hist st))) (random_uuid w (EvNow :: hist st)) /\
    keyword i = k /\
    title i = clean_html_tags (default "" (raw_title item)) /\
    description i = clean_html_tags (default "" (raw_description item)).
Proof.
  unfold prepare_item.
  erewrite bind_run by reflexivity.
  erewrite bind_run by reflexivity.
  cbv beta zeta.
  lazymatch goal with
  | |- context [@bind ?A ?B ?m ?k ?s] =>
      assert (Himg : exists imgs st2, m s = (inr imgs, st2) /\ same_locals s st2)
  end.
  { destruct (Py.truthy (Some _)).
    - erewrite bind_run by apply extract_image_from_article_eq.
      destruct (Py.truthy _).
      + match goal with
        | |- context [@bind ?A ?B (download_and_upload_image lib w ?u ?i) ?k ?s] =>
            destruct (download_and_upload_image_returns lib w u i s)
              as (r & st' & Heq & Hloc)
        end.
        erewrite bind_run by exact Heq.
        eexists _, _. split; [reflexivity|].
        eapply same_locals_trans; [apply same_locals_push | exact Hloc].
      + eexists _, _. split; [reflexivity | apply same_locals_push].
    - eexists _, _. split; [reflexivity | apply same_locals_refl]. }
  destruct Himg as (imgs & st2 & Himg & Hloc).
  erewrite bind_run by exact Himg.
  erewrite bind_run by reflexivity.
  erewrite bind_run by reflexivity.
  eexists _, _. split; [reflexivity|].
  split; [|repeat split; reflexivity].
  destruct Hloc as [H1 H2]. split; simpl; [rewrite H1 | rewrite H2]; reflexivity.
Qed.

(** What the body of the item loop does once the item is assembled. *)
Lemma process_item_eq (k : string) (item : raw_item) (st st1 : state) (i : news_item) :
  prepare_item lib w k item st = (inr i, st1) ->
  process_item lib w k item st =
  match table_put_item w (hist st1) i with
  | None => count_item i (push (EvPutItem i) st1)
  | Some (ClientError _) => (inr tt, push (EvPutItem i) st1)
  | Some e => (inl e, push (EvPutItem i) st1)
  end.
Proof.
  intros Hprep. unfold process_item.
  erewrite bind_run by exact Hprep.
  unfold bind, try_except, put_item, ret.
  destruct (table_put_item w (hist st1) i) as [[| |]|]; reflexivity.
Qed.

Lemma process_keyword_returns (k : string) (st : state) :
  exists st', process_keyword lib w k st = (inr tt, st').
Proof.
  unfold process_keyword.
  match goal with
  | |- context [try_except ?m _] => destruct (try_except_all m st) as [st1 Htry]
  end.
  erewrite bind_run by exact Htry.
  eexists. reflexivity.
Qed.

Lemma process_keyword_search_fails (k : string) (st : state) :
  search_fails w k st ->
  process_keyword lib w k st =
  (inr tt, push (EvSleep 1) (push (EvGet (search_request w k)) st)).
Proof.
  unfold search_fails, process_keyword, search_request.
  unfold bind, try_except, requests_get, time_sleep, record, ret.
  destruct (http w (hist st) _) as [e|r]; intros Hfail; [reflexivity|].
  destruct (Z.eqb_spec (status_code r) 200) as [Heq|Hne]; [contradiction|].
  reflexivity.
Qed.

Lemma keywords_loop_returns (ks : list string) :
  forall st, exists st', for_each ks (process_keyword lib w) st = (inr tt, st').
Proof.
  induction ks as [|k ks IH]; intros st; simpl.
  - eexists. reflexivity.
  - destruct (process_keyword_returns k st) as [st1 H1].
    erewrite bind_run by exact H1. apply IH.
Qed.

Lemma lambda_handler_returns (event context : PyValue) (st : state) :
  exists r st',
    lambda_handler lib w event context st = (inr r, st') /\
    statusCode r = 200 /\
    keywords_searched (body r) = [bitcoin].
Proof.
  unfold lambda_handler.
  erewrite bind_run by reflexivity.
  erewrite bind_run by reflexivity.
  lazymatch goal with
  | |- context [@bind ?A ?B (for_each ?ks ?f) ?k ?s] =>
      destruct (keywords_loop_returns ks s) as [st1 Hloop]
  end.
  erewrite bind_run by exact Hloop.
  erewrite bind_run by reflexivity.
  eexists _, _. split; [reflexivity|]. split; reflexivity.
Qed.

Lemma startup_event_returns (st : state) :
  exists st', startup_event w st = (inr tt, st').
Proof. apply try_except_all. Qed.

End HandlerFacts.

Section RunSteps.

Variable lib : Library.
Variable w : World.

(** The run, step by step: the variables are reset, the clock is read,
    the keyword loop runs, the clock is read again and the summary is
    built from the variables. *)
Lemma lambda_handler_run (event context : PyValue) (st : state) :
  exists st2,
    for_each [bitcoin] (process_keyword lib w) (push EvNow (mkState (hist st) [] 0))
      = (inr tt, st2) /\
    lambda_handler lib w event context st =
      (inr (mkResult 200
              (mkSummary "뉴스 수집 및 DynamoDB 저장 완료"
                         (total_collected st2) [bitcoin]
                         (isoformat (local_time (clock w (hist st2))))
                         "ioi_contents_table" "ap-northeast-3"
                         (take 3 (collected_news st2)))),
       push EvNow st2).
Proof.
  destruct (keywords_loop_returns lib w [bitcoin] (push EvNow (mkState (hist st) [] 0)))
    as [st2 Hloop].
  exists st2. split; [exact Hloop|].
  unfold lambda_handler.
  erewrite bind_run by reflexivity.
  erewrite bind_run by reflexivity.
  erewrite bind_run by exact Hloop.
  erewrite bind_run by reflexivity.
  reflexivity.
Qed.

End RunSteps.

(** ** Printed numbers and their order *)

Section Strings.

Lemma append_nil_l (b : string) : "" ++ b = b.
Proof. reflexivity. Qed.

Lemma append_cons (x : ascii) (a b : string) : String x a ++ b = String x (a ++ b).
Proof. reflexivity. Qed.

Lemma append_assoc (a b c : string) : (a ++ b) ++ c = a ++ (b ++ c).
Proof.
  induction a as [|x a IH]; rewrite ?append_nil_l, ?append_cons;
    [reflexivity | now rewrite IH].
Qed.

Lemma length_append (a b : string) :
  String.length (a ++ b) = (String.length a + String.length b)%nat.
Proof.
  induction a as [|x a IH]; rewrite ?append_nil_l, ?append_cons; simpl;
    [reflexivity | now rewrite IH].
Qed.

Lemma substring_all (a b : string) :
  substring 0 (String.length a) (a ++ b) = a.
Proof.
  induction a as [|x a IH]; rewrite ?append_nil_l, ?append_cons; simpl;
    [now destruct b | now rewrite IH].
Qed.

Lemma length_substring_0 (n : nat) (s : string) :
  (n <= String.length s)%nat -> String.length (substring 0 n s) = n.
Proof.
  revert s. induction n as [|n IH]; intros [|x s] Hn; simpl in *;
    try reflexivity; try lia.
  rewrite IH; [reflexivity | lia].
Qed.

Lemma compare_cons (x y : ascii) (s t : string) :
  String.compare (String x s) (String y t) =
  match Ascii.compare x y with
  | Eq => String.compare s t
  | ne => ne
  end.
Proof. reflexivity. Qed.

Lemma ascii_compare_refl (c : ascii) : Ascii.compare c c = Eq.
Proof. unfold Ascii.compare. apply N.compare_refl. Qed.

Lemma compare_append_same (a s t : string) :
  String.compare (a ++ s) (a ++ t) = String.compare s t.
Proof.
  induction a as [|x a IH]; rewrite ?append_nil_l, ?append_cons; simpl;
    [reflexivity|].
  now rewrite ascii_compare_refl.
Qed.

Lemma compare_append_lt (a b s t : string) :
  String.length a = String.length b ->
  String.compare a b = Lt ->
  String.compare (a ++ s) (b ++ t) = Lt.
Proof.
  revert b. induction a as [|x a IH]; intros [|y b] Hlen Hlt;
    rewrite ?append_nil_l, ?append_cons; simpl in *; try discriminate.
  destruct (Ascii.compare x y); try discriminate; [|reflexivity].
  apply IH; [lia | exact Hlt].
Qed.

(** One field of a fixed-width key: it decides, or it is equal and the
    rest decides. *)
Lemma compare_field (a b s t : string) :
  String.length a = String.length b ->
  String.compare a b = Lt \/ (a = b /\ String.compare s t = Lt) ->
  String.compare (a ++ s) (b ++ t) = Lt.
Proof.
  intros Hlen [Hlt | [-> Hrest]].
  - now apply compare_append_lt.
  - now rewrite compare_append_same.
Qed.

End Strings.

Section Digits.

Lemma digit_compare (a b : Z) :
  0 <= a <= 9 -> 0 <= b <= 9 ->
  Ascii.compare (Fmt.digit a) (Fmt.digit b) = (a ?= b).
Proof.
  intros Ha Hb.
  assert (Ea : a = 0 \/ a = 1 \/ a = 2 \/ a = 3 \/ a = 4 \/ a = 5 \/ a = 6 \/
               a = 7 \/ a = 8 \/ a = 9) by lia.
  assert (Eb : b = 0 \/ b = 1 \/ b = 2 \/ b = 3 \/ b = 4 \/ b = 5 \/ b = 6 \/
               b = 7 \/ b = 8 \/ b = 9) by lia.
  repeat (destruct Ea as [->|Ea]); try subst a;
    repeat (destruct Eb as [->|Eb]); try subst b; reflexivity.
Qed.

Lemma digits_small (fuel : nat) (n : Z) (acc : string) :
  0 <= n <= 9 -> Fmt.digits fuel n acc = String (Fmt.digit n) acc.
Proof.
  intros Hn. destruct fuel; simpl; rewrite Z.mod_small by lia; [reflexivity|].
  destruct (Z.ltb_spec n 10); [reflexivity | lia].
Qed.

Lemma digits_step (fuel : nat) (n : Z) (acc : string) :
  10 <= n ->
  Fmt.digits (S fuel) n acc =
  Fmt.digits fuel (n / 10) (String (Fmt.digit (n mod 10)) acc).
Proof.
  intros Hn. simpl. destruct (Z.ltb_spec n 10); [lia | reflexivity].
Qed.

Lemma d_one (n : Z) : 0 <= n <= 9 -> Fmt.d n = String (Fmt.digit n) "".
Proof. intros Hn. unfold Fmt.d. now apply digits_small. Qed.

Lemma d_two (n : Z) : 10 <= n <= 99 -> Fmt.d n = two_digits n.
Proof.
  intros Hn. unfold Fmt.d, two_digits.
  assert (Hlog : 3 <= Z.log2 n)
    by (change 3 with (Z.log2 10); apply Z.log2_le_mono; lia).
  destruct (Z.to_nat (Z.log2 n)) as [|fuel] eqn:Hfuel; [lia|].
  rewrite digits_step by lia.
  apply digits_small.
  pose proof (Z.div_mod n 10). pose proof (Z.mod_pos_bound n 10). lia.
Qed.

Lemma d_four (n : Z) : 1000 <= n <= 9999 -> Fmt.d n = four_digits n.
Proof.
  intros Hn. unfold Fmt.d, four_digits.
  assert (Hlog : 9 <= Z.log2 n)
    by (change 9 with (Z.log2 1000); apply Z.log2_le_mono; lia).
  destruct (Z.to_nat (Z.log2 n)) as [|[|[|fuel]]] eqn:Hfuel; try lia.
  pose proof (Z.div_mod n 10). pose proof (Z.mod_pos_bound n 10).
  pose proof (Z.div_mod (n / 10) 10). pose proof (Z.mod_pos_bound (n / 10) 10).
  pose proof (Z.div_mod (n / 10 / 10) 10).
  pose proof (Z.mod_pos_bound (n / 10 / 10) 10).
  rewrite !digits_step by lia.
  apply digits_small. lia.
Qed.

Lemma d02_two (n : Z) : 0 <= n <= 99 -> Fmt.d02 n = two_digits n.
Proof.
  intros Hn. unfold Fmt.d02, Fmt.zfill.
  destruct (Z.ltb_spec n 10) as [Hlt|Hge].
  - rewrite d_one by lia. unfold two_digits.
    rewrite Z.div_small, Z.mod_small by lia. reflexivity.
  - rewrite d_two by lia. reflexivity.
Qed.

Lemma two_digits_lt (x y : Z) :
  0 <= x <= 99 -> 0 <= y <= 99 -> x < y ->
  String.compare (two_digits x) (two_digits y) = Lt.
Proof.
  intros Hx Hy Hlt. unfold two_digits. rewrite !compare_cons.
  pose proof (Z.div_mod x 10). pose proof (Z.mod_pos_bound x 10).
  pose proof (Z.div_mod y 10). pose proof (Z.mod_pos_bound y 10).
  rewrite !digit_compare by lia.
  destruct (Z.compare_spec (x / 10) (y / 10)); [|reflexivity|lia].
  destruct (Z.compare_spec (x mod 10) (y mod 10)); [lia|reflexivity|lia].
Qed.

Lemma four_digits_lt (x y : Z) :
  1000 <= x <= 9999 -> 1000 <= y <= 9999 -> x < y ->
  String.compare (four_digits x) (four_digits y) = Lt.
Proof.
  intros Hx Hy Hlt. unfold four_digits. rewrite !compare_cons.
  pose proof (Z.div_mod x 10). pose proof (Z.mod_pos_bound x 10).
  pose proof (Z.div_mod (x / 10) 10). pose proof (Z.mod_pos_bound (x / 10) 10).
  pose proof (Z.div_mod (x / 10 / 10) 10).
  pose proof (Z.mod_pos_bound (x / 10 / 10) 10).
  pose proof (Z.div_mod y 10). pose proof (Z.mod_pos_bound y 10).
  pose proof (Z.div_mod (y / 10) 10). pose proof (Z.mod_pos_bound (y / 10) 10).
  pose proof (Z.div_mod (y / 10 / 10) 10).
  pose proof (Z.mod_pos_bound (y / 10 / 10) 10).
  rewrite !digit_compare by lia.
  destruct (Z.compare_spec (x / 10 / 10 / 10) (y / 10 / 10 / 10)); [|reflexivity|lia].
  destruct (Z.compare_spec (x / 10 / 10 mod 10) (y / 10 / 10 mod 10));
    [|reflexivity|lia].
  destruct (Z.compare_spec (x / 10 mod 10) (y / 10 mod 10)); [|reflexivity|lia].
  destruct (Z.compare_spec (x mod 10) (y mod 10)); [lia|reflexivity|lia].
Qed.

Lemma two_digits_field (x y : Z) (s t : string) :
  0 <= x <= 99 -> 0 <= y <= 99 ->
  x < y \/ (x = y /\ String.compare s t = Lt) ->
  String.compare (two_digits x ++ s) (two_digits y ++ t) = Lt.
Proof.
  intros Hx Hy H. apply compare_field; [reflexivity|].
  destruct H as [Hlt | [-> Hrest]]; [left | right; split; trivial].
  now apply two_digits_lt.
Qed.

Lemma four_digits_field (x y : Z) (s t : string) :
  1000 <= x <= 9999 -> 1000 <= y <= 9999 ->
  x < y \/ (x = y /\ String.compare s t = Lt) ->
  String.compare (four_digits x ++ s) (four_digits y ++ t) = Lt.
Proof.
  intros Hx Hy H. apply compare_field; [reflexivity|].
  destruct H as [Hlt | [-> Hrest]]; [left | right; split; trivial].
  now apply four_digits_lt.
Qed.

Lemma length_hex (k : nat) (n : Z) : String.length (Fmt.hex k n) = k.
Proof.
  revert n. induction k as [|k IH]; intros n; simpl; [reflexivity|].
  rewrite length_append, IH. simpl. lia.
Qed.

(** The first eight characters of [str(u)] are eight characters. *)
Lemma length_uuid_prefix (u : Z) :
  String.length (substring 0 8 (uuid_str u)) = 8%nat.
Proof.
  unfold uuid_str.
  assert (H8 : String.length (substring 0 8 (Fmt.hex 32 u)) = 8%nat)
    by (apply length_substring_0; rewrite length_hex; lia).
  rewrite <- H8 at 1. rewrite substring_all. exact H8.
Qed.

Lemma length_strftime_uid (t : datetime) :
  datetime_ok t -> String.length (strftime_uid t) = 16%nat.
Proof.
  intros (Hy & Hm & Hd & HH & HM & HS & _). unfold strftime_uid.
  rewrite d_four, !d02_two by lia. reflexivity.
Qed.

End Digits.

(** ** Removing tags *)

Section Cleaning.

Lemma clean_html_tags_cons (c : ascii) (rest : string) :
  clean_html_tags (String c rest) =
  if Ascii.eqb c "<" then
    match close_tag rest with
    | Some t => clean_html_tags t
    | None => String c (clean_html_tags rest)
    end
  else String c (clean_html_tags rest).
Proof.
  cbn [clean_html_tags]. destruct (Ascii.eqb c "<"); [|reflexivity].
  match goal with
  | |- match ?f rest with _ => _ end = _ =>
      assert (Hclose : forall t, f t = option_map clean_html_tags (close_tag t))
  end.
  { induction t as [|e t IH]; [reflexivity|].
    cbn [close_tag]. destruct (Ascii.eqb e ">"); [reflexivity|].
    destruct (Ascii.eqb e "010"); [reflexivity | exact IH]. }
  rewrite Hclose. destruct (close_tag rest); reflexivity.
Qed.

Lemma contains_char (c a : ascii) (s : string) :
  Py.contains (String c "") (String a s) =
  Ascii.eqb c a || Py.contains (String c "") s.
Proof.
  cbn [Py.contains String.prefix].
  destruct (ascii_dec c a) as [->|Hne].
  - rewrite Ascii.eqb_refl. now destruct s.
  - apply Ascii.eqb_neq in Hne. now rewrite Hne.
Qed.

Lemma has_markup_tag_cons (c : ascii) (s : string) :
  has_markup_tag (String c s) =
  (Ascii.eqb c "<" && Py.contains ">" s) || has_markup_tag s.
Proof. reflexivity. Qed.

Lemma close_tag_no_gt (s : string) :
  Py.contains ">" s = false -> close_tag s = None.
Proof.
  induction s as [|e s IH]; [reflexivity|].
  rewrite contains_char. cbn [close_tag]. rewrite (Ascii.eqb_sym e).
  destruct (Ascii.eqb ">" e); [discriminate|]. simpl.
  intros H. rewrite IH by exact H. now destruct (Ascii.eqb e "010").
Qed.

Lemma clean_html_tags_no_gt (s : string) :
  Py.contains ">" s = false -> clean_html_tags s = s.
Proof.
  induction s as [|c s IH]; [reflexivity|].
  rewrite contains_char, clean_html_tags_cons.
  destruct (Ascii.eqb ">" c); [discriminate|]. simpl. intros H.
  rewrite close_tag_no_gt, IH by exact H. now destruct (Ascii.eqb c "<").
Qed.

Lemma has_markup_tag_no_gt (s : string) :
  Py.contains ">" s = false -> has_markup_tag s = false.
Proof.
  induction s as [|c s IH]; [reflexivity|].
  rewrite contains_char, has_markup_tag_cons.
  destruct (Ascii.eqb ">" c); [discriminate|]. simpl. intros H.
  rewrite H, IH by exact H. now rewrite andb_false_r.
Qed.

Lemma close_tag_None_one_line (s : string) :
  one_line s -> close_tag s = None -> Py.contains ">" s = false.
Proof.
  unfold one_line. induction s as [|e s IH]; [reflexivity|].
  rewrite !contains_char. cbn [close_tag]. rewrite !(Ascii.eqb_sym e).
  destruct (Ascii.eqb ">" e); [discriminate|].
  destruct (Ascii.eqb "010" e); [discriminate|]. simpl. exact IH.
Qed.

Lemma close_tag_Some (s t : string) :
  close_tag s = Some t ->
  (String.length t < String.length s)%nat /\ (one_line s -> one_line t).
Proof.
  unfold one_line. induction s as [|e s IH]; [discriminate|].
  rewrite contains_char. cbn [close_tag String.length].
  rewrite (Ascii.eqb_sym e "010").
  destruct (Ascii.eqb e ">").
  - intros [= ->]. split; [lia|].
    destruct (Ascii.eqb "010" e); [discriminate | trivial].
  - destruct (Ascii.eqb "010" e); [discriminate|].
    intros H. destruct (IH H) as [Hlen Hline]. split; [lia | exact Hline].
Qed.

(** On a text without line feed no tag is left. *)
Lemma clean_html_tags_one_line_ok (s : string) :
  one_line s -> has_markup_tag (clean_html_tags s) = false.
Proof.
  remember (String.length s) as n eqn:Hn.
  revert s Hn. induction n as [n IH] using lt_wf_ind. intros [|c rest] Hn Hline.
  - reflexivity.
  - assert (Hrest : one_line rest).
    { unfold one_line in *. rewrite contains_char in Hline.
      now apply orb_false_iff in Hline. }
    simpl in Hn. rewrite clean_html_tags_cons.
    destruct (Ascii.eqb c "<") eqn:Hc.
    + destruct (close_tag rest) as [t|] eqn:Hclose.
      * destruct (close_tag_Some rest t Hclose) as [Hlen Ht].
        apply (IH (String.length t)); [lia | reflexivity | now apply Ht].
      * pose proof (close_tag_None_one_line rest Hrest Hclose) as Hgt.
        rewrite clean_html_tags_no_gt by exact Hgt.
        rewrite has_markup_tag_cons, Hgt, has_markup_tag_no_gt by exact Hgt.
        now rewrite andb_false_r.
    + rewrite has_markup_tag_cons, Hc. simpl.
      apply (IH (String.length rest)); [lia | reflexivity | exact Hrest].
Qed.

End Cleaning.

(** ** Sorting what was scanned *)

Section Sorting.

Lemma ltb_asym (a b : string) : String.ltb a b = true -> String.ltb b a = false.
Proof.
  unfold String.ltb. rewrite (String.compare_antisym b a).
  now destruct (String.compare a b).
Qed.

Lemma insert_by_uid_head (x : scanned_item) (l : list scanned_item) :
  exists y l', insert_by_uid x l = y :: l' /\
               (y = x \/ exists l0, l = y :: l0 /\ String.ltb (s_uid x) (s_uid y) = true).
Proof.
  destruct l as [|y l]; simpl.
  - exists x, []. auto.
  - destruct (String.ltb (s_uid x) (s_uid y)) eqn:Hlt.
    + exists y, (insert_by_uid x l). split; [reflexivity|]. right. eauto.
    + exists x, (y :: l). auto.
Qed.

Lemma insert_by_uid_descending (x : scanned_item) (l : list scanned_item) :
  descending l -> descending (insert_by_uid x l).
Proof.
  induction l as [|y l IH]; intros Hl; [exact I|].
  cbn [insert_by_uid].
  destruct (String.ltb (s_uid x) (s_uid y)) eqn:Hlt.
  - destruct (insert_by_uid_head x l) as (z & l' & Heq & Hz).
    assert (Hl' : descending l) by (destruct l; [exact I | apply Hl]).
    specialize (IH Hl'). rewrite Heq in *. split; [|exact IH].
    destruct Hz as [-> | (l0 & -> & _)].
    + now apply ltb_asym.
    + apply Hl.
  - split; [exact Hlt | exact Hl].
Qed.

Lemma sorted_by_uid_reverse_descending (items : list scanned_item) :
  descending (sorted_by_uid_reverse items).
Proof.
  induction items as [|x items IH]; [exact I|].
  apply insert_by_uid_descending, IH.
Qed.

Lemma insert_by_uid_perm (x : scanned_item) (l : list scanned_item) :
  Permutation (insert_by_uid x l) (x :: l).
Proof.
  induction l as [|y l IH]; [reflexivity|]. simpl.
  destruct (String.ltb (s_uid x) (s_uid y)); [|reflexivity].
  rewrite IH. apply perm_swap.
Qed.

Lemma sorted_by_uid_reverse_perm (items : list scanned_item) :
  Permutation (sorted_by_uid_reverse items) items.
Proof.
  induction items as [|x items IH]; [reflexivity|]. simpl.
  rewrite insert_by_uid_perm. now constructor.
Qed.

End Sorting.

(** ** ImageLocator *)

(** C1, as the code has it.  Once the article page is fetched,
    [extract_image_from_article] goes through the five strategies in
    their fixed order and returns the first candidate that, made absolute,
    contains one of [.jpg .jpeg .png .gif .webp] anywhere in the URL,
    letters of either case; a candidate that contains none of them is never
    returned, and the result is [None] when no candidate is accepted. *)
Theorem image_locator_first_accepted
        (lib : Library) (w : World) (article_url : string) (st : state)
        (response : response) :
  http w (hist st) (article_request article_url) = inr response ->
  status_ok response ->
  let candidates :=
    map (candidate (urljoin lib) article_url)
        (img_patterns (html_parser lib (content response))) in
  length candidates = 5%nat /\
  (extract_image_from_article lib w article_url st).1 = inr (first_accepted candidates) /\
  (forall u, first_accepted candidates = Some u ->
             In (Some u) candidates /\ mentions_image_extension u = true) /\
  (first_accepted candidates = None ->
   forall u, In (Some u) candidates -> mentions_image_extension u = false).
Proof.
  intros Hget Hok candidates. split; [reflexivity|]. split.
  - rewrite extract_image_from_article_eq, Hget. simpl.
    unfold status_ok in Hok. rewrite Hok.
    now rewrite locate_in_soup_first_accepted.
  - split.
    + intros u. apply first_accepted_Some.
    + apply first_accepted_None.
Qed.

Lemma image_locator_first_accepted_witness :
  (extract_image_from_article Demo.lib Demo.fine "https://news.example.com/a1"
                              Demo.start).1 =
  inr (Some "https://img.example.com/a1.png").
Proof.
  pose proof (image_locator_first_accepted Demo.lib Demo.fine
                "https://news.example.com/a1" Demo.start
                (mkResponse 200 (Some "text/html") "<og>")
                eq_refl eq_refl) as (_ & H & _).
  exact H.
Defined.

(** C1 as the specification words it fails: the page [Demo.page_script]
    names its picture [image.php?file=photo.jpg]; the path of that URL
    ends in [.php], and the URL is returned all the same. *)
Lemma image_locator_returns_non_image_path :
  ~ (forall (lib : Library) (w : World) (article_url : string) (st : state) (u : string),
        (extract_image_from_article lib w article_url st).1 = inr (Some u) ->
        path_has_image_extension u = true).
Proof.
  intros H.
  specialize (H Demo.lib Demo.fine "https://news.example.com/a3" Demo.start
                "https://news.example.com/image.php?file=photo.jpg" eq_refl).
  vm_compute in H. discriminate H.
Qed.



(** A root-relative source is joined to the article URL. *)
Example image_locator_joins_root_relative :
  (extract_image_from_article Demo.lib Demo.fine "https://news.example.com/a2"
                              Demo.start).1 =
  inr (Some "https://news.example.com/img/a2.jpg").
Proof. vm_compute. reflexivity. Qed.


(** ** ImageArchiver *)

(** C3, as the code has it.  When the content type of the downloaded
    response does not contain the letters [image] (the header may also be
    absent),
    [download_and_upload_image] returns [None] having made the download
    request and nothing else: [put_object] is never called. *)
Theorem archiver_rejects_non_image
        (lib : Library) (w : World) (image_url uid : string) (st : state)
        (response : response) :
  http w (hist st) (image_request image_url) = inr response ->
  Py.contains "image" (default "" (header_content_type response)) = false ->
  download_and_upload_image lib w image_url uid st =
    (inr None, push (EvGet (image_request image_url)) st) /\
  forall a, In (EvPutObject a)
               (hist (download_and_upload_image lib w image_url uid st).2) ->
            In (EvPutObject a) (hist st).
Proof.
  intros Hget Htype.
  assert (Heq : download_and_upload_image lib w image_url uid st =
                (inr None, push (EvGet (image_request image_url)) st)).
  { unfold download_and_upload_image, image_request in *.
    unfold_monad. unfold_calls. unfold_monad. rewrite Hget.
    destruct ((400 <=? status_code response) && (status_code response <? 600));
      [reflexivity|].
    rewrite Htype. reflexivity. }
  split; [exact Heq|].
  rewrite Heq. simpl. intros a [Habs|Hin]; [discriminate Habs | exact Hin].
Qed.

Lemma archiver_rejects_non_image_witness :
  download_and_upload_image Demo.lib Demo.fine "https://img.example.com/gone.png"
                            "20240506_070809_12345678" Demo.start =
    (inr None, push (EvGet (image_request "https://img.example.com/gone.png")) Demo.start) /\
  forall a, In (EvPutObject a)
               (hist (download_and_upload_image Demo.lib Demo.fine
                        "https://img.example.com/gone.png"
                        "20240506_070809_12345678" Demo.start).2) ->
            In (EvPutObject a) (hist Demo.start).
Proof.
  apply (archiver_rejects_non_image Demo.lib Demo.fine
           "https://img.example.com/gone.png" "20240506_070809_12345678" Demo.start
           (mkResponse 200 (Some "text/html") "<html>not found</html>")).
  - reflexivity.
  - reflexivity.
Defined.

(** A response without a content-type header is rejected in the same
    way. *)
Example archiver_rejects_missing_header :
  Py.contains "image" (default "" (header_content_type (mkResponse 200 None "bytes")))
  = false.
Proof. reflexivity. Qed.

(** C3 as the specification words it fails: the content type
    [application/vnd.oci.image.manifest.v1+json] is not an image type, yet
    it contains the letters [image]: the body is uploaded, with the
    default extension, and a URL is returned. *)
Lemma archiver_uploads_non_image_type :
  ~ (forall (lib : Library) (w : World) (image_url uid : string) (st : state)
            (response : response),
        http w (hist st) (image_request image_url) = inr response ->
        indicates_image (default "" (header_content_type response)) = false ->
        download_and_upload_image lib w image_url uid st =
        (inr None, push (EvGet (image_request image_url)) st)).
Proof.
  intros H.
  specialize (H Demo.lib Demo.registry "https://registry.example.com/v2/manifest" "U"
                Demo.start
                (mkResponse 200 (Some "application/vnd.oci.image.manifest.v1+json")
                            "{manifest}")
                eq_refl eq_refl).
  vm_compute in H. discriminate H.
Qed.

Example registry_manifest_is_uploaded :
  (download_and_upload_image Demo.lib Demo.registry
     "https://registry.example.com/v2/manifest" "U" Demo.start).1 =
  inr (Some "https://d3nvut5aamy17o.cloudfront.net/images/news/2024/05/06/U.jpg").
Proof. vm_compute. reflexivity. Qed.

(** C5, as the code has it.  After a successful archive the key is
    [images/news/<year>/<month>/<day>/<uid><ext>], with month and day on
    two digits, for the date that [datetime.now()] reports, which is the
    date in the time zone of the process; the extension is the one guessed
    from the content type, and [.jpg] when none is guessed; the object is
    uploaded under that key; the returned URL is the CDN base followed by
    the key; and the download, the clock reading and the upload are the
    only interactions. *)
Theorem archive_key_and_cdn_url
        (lib : Library) (w : World) (image_url uid : string) (st : state)
        (url : string) :
  (download_and_upload_image lib w image_url uid st).1 = inr (Some url) ->
  exists response,
    http w (hist st) (image_request image_url) = inr response /\
    let content_type := default "" (header_content_type response) in
    let ext := default ".jpg" (Py.or_ (guess_extension lib content_type) (Some ".jpg")) in
    let now := local_time (clock w (EvGet (image_request image_url) :: hist st)) in
    let key := "images/news/" ++ Fmt.d (year now) ++ "/" ++ Fmt.d02 (month now) ++ "/" ++
               Fmt.d02 (day now) ++ "/" ++ uid ++ ext in
    (guess_extension lib content_type = None -> ext = ".jpg") /\
    url = "https://d3nvut5aamy17o.cloudfront.net/" ++ key /\
    hist (download_and_upload_image lib w image_url uid st).2 =
      EvPutObject (mkPutObject "ioi-contents-bukket" key (content response)
                               content_type "max-age=31536000")
      :: EvNow :: EvGet (image_request image_url) :: hist st.
Proof.
  unfold download_and_upload_image, image_request.
  unfold_monad. unfold_calls. unfold_monad.
  destruct (http w (hist st) _) as [e|response] eqn:Hget; [discriminate|].
  destruct ((400 <=? status_code response) && (status_code response <? 600));
    [discriminate|].
  destruct (negb (Py.contains "image" _)); [discriminate|].
  simpl. intros Hres. exists response. split; [reflexivity|].
  split; [intros ->; reflexivity|].
  destruct (s3_put_object w _ _); [discriminate|].
  injection Hres as <-. split; reflexivity.
Qed.

Lemma archive_key_and_cdn_url_witness :
  exists response,
    http Demo.fine (hist Demo.start) (image_request "https://img.example.com/a1.png")
      = inr response /\
    let content_type := default "" (header_content_type response) in
    let ext := default ".jpg" (Py.or_ (Demo.extension_of content_type) (Some ".jpg")) in
    let now := local_time (clock Demo.fine
                             (EvGet (image_request "https://img.example.com/a1.png")
                                :: hist Demo.start)) in
    let key := "images/news/" ++ Fmt.d (year now) ++ "/" ++ Fmt.d02 (month now) ++ "/" ++
               Fmt.d02 (day now) ++ "/" ++ "20240506_070809_12345678" ++ ext in
    (Demo.extension_of content_type = None -> ext = ".jpg") /\
    "https://d3nvut5aamy17o.cloudfront.net/images/news/2024/05/06/20240506_070809_12345678.png"
      = "https://d3nvut5aamy17o.cloudfront.net/" ++ key /\
    hist (download_and_upload_image Demo.lib Demo.fine "https://img.example.com/a1.png"
            "20240506_070809_12345678" Demo.start).2 =
      EvPutObject (mkPutObject "ioi-contents-bukket" key (content response)
                               content_type "max-age=31536000")
      :: EvNow :: EvGet (image_request "https://img.example.com/a1.png")
      :: hist Demo.start.
Proof.
  exact (archive_key_and_cdn_url Demo.lib Demo.fine "https://img.example.com/a1.png"
           "20240506_070809_12345678" Demo.start
           "https://d3nvut5aamy17o.cloudfront.net/images/news/2024/05/06/20240506_070809_12345678.png"
           eq_refl).
Defined.

(** C5 as the specification words it fails: read in Seoul on 1 January
    2024 at 20:00 UTC, the clock says 2 January, and the key is filed
    under [2024/01/02], not under the UTC date. *)
Lemma archive_key_not_by_utc_date :
  ~ (forall (lib : Library) (w : World) (image_url uid : string) (st : state)
            (url : string),
        (download_and_upload_image lib w image_url uid st).1 = inr (Some url) ->
        exists ext,
          url = cloudfront_base ++
                s3_key_for (utc_time (clock w (EvGet (image_request image_url) :: hist st)))
                           uid ext).
Proof.
  intros H.
  destruct (H Demo.lib Demo.in_seoul "https://img.example.com/a1.png" "U" Demo.start
              "https://d3nvut5aamy17o.cloudfront.net/images/news/2024/01/02/U.png"
              eq_refl) as [ext Hext].
  vm_compute in Hext. discriminate Hext.
Qed.

(** ** The ingestion run *)

(** C6, as the code has it.  [lambda_handler] resets its variables, reads
    the clock, runs the keyword loop, reads the clock and returns its
    summary with status 200: neither it nor the keyword loop raises,
    whatever the outside world does.  A keyword whose search answers 200
    runs the item loop on the results, swallows whatever that loop raises,
    and pauses.  When the search fails (the request raises, or the status is
    not 200) the keyword costs that one request and the pause, no item is
    handled, and the remaining keywords follow.  When [put_item] raises
    [ClientError] for an item, the item is not counted and the item loop
    goes on with the next item; when it raises anything else, the item loop
    ends there, the later items of the keyword are not handled, and the
    run goes on with the pause and the next keyword. *)
Theorem ingestion_failure_handling (lib : Library) (w : World) :
  (forall event context st,
      exists r st2,
        for_each [bitcoin] (process_keyword lib w)
                 (push EvNow (mkState (hist st) [] 0)) = (inr tt, st2) /\
        lambda_handler lib w event context st = (inr r, push EvNow st2) /\
        statusCode r = 200 /\
        body_total_collected (body r) = total_collected st2 /\
        sample_news (body r) = take 3 (collected_news st2)) /\
  (forall ks st,
      exists st', for_each ks (process_keyword lib w) st = (inr tt, st')) /\
  (forall k st response items,
      http w (hist st) (search_request w k) = inr response ->
      status_code response = 200 ->
      json_items lib (content response) = Some items ->
      process_keyword lib w k st =
      (inr tt,
       push (EvSleep 1)
            (for_each items (process_item lib w k)
                      (push (EvGet (search_request w k)) st)).2)) /\
  (forall k ks st,
      search_fails w k st ->
      for_each (k :: ks) (process_keyword lib w) st =
      for_each ks (process_keyword lib w)
               (push (EvSleep 1) (push (EvGet (search_request w k)) st))) /\
  (forall k item items st,
      exists i st1,
        prepare_item lib w k item st = (inr i, st1) /\
        same_locals st st1 /\
        (forall msg,
            table_put_item w (hist st1) i = Some (ClientError msg) ->
            for_each (item :: items) (process_item lib w k) st =
            for_each items (process_item lib w k) (push (EvPutItem i) st1)) /\
        (forall e,
            table_put_item w (hist st1) i = Some e ->
            (forall msg, e <> ClientError msg) ->
            for_each (item :: items) (process_item lib w k) st =
            (inl e, push (EvPutItem i) st1))).
Proof.
  split; [|split; [|split; [|split]]].
  - intros event context st.
    destruct (lambda_handler_run lib w event context st) as (st2 & Hloop & Hrun).
    eexists _, st2. split; [exact Hloop|]. split; [exact Hrun|]. cbn. auto.
  - intros ks st. apply keywords_loop_returns.
  - intros k st response items Hget Hstatus Hitems.
    unfold process_keyword, search_request in *.
    unfold bind at 1. unfold try_except. unfold bind at 1. unfold requests_get at 1.
    rewrite Hget, Hstatus, Hitems. cbn [Z.eqb Pos.eqb].
    destruct (for_each items _ _) as [[e|[]] st']; reflexivity.
  - intros k ks st Hfail. simpl.
    erewrite bind_run by (apply process_keyword_search_fails; exact Hfail).
    reflexivity.
  - intros k item items st.
    destruct (prepare_item_returns lib w k item st) as (i & st1 & Hprep & Hloc & _).
    exists i, st1. split; [exact Hprep|]. split; [exact Hloc|]. split.
    + intros msg Hput. simpl.
      erewrite bind_run; [reflexivity|].
      rewrite (process_item_eq lib w k item st st1 i Hprep), Hput. reflexivity.
    + intros e Hput Hne. simpl.
      erewrite bind_raise; [reflexivity|].
      rewrite (process_item_eq lib w k item st st1 i Hprep), Hput.
      destruct e as [|msg|]; [reflexivity | now destruct (Hne msg) | reflexivity].
Qed.

Lemma ingestion_failure_handling_witness :
  process_keyword Demo.lib Demo.fine bitcoin Demo.start =
  (inr tt,
   push (EvSleep 1)
        (for_each [Demo.item1; Demo.item2] (process_item Demo.lib Demo.fine bitcoin)
                  (push (EvGet (search_request Demo.fine bitcoin)) Demo.start)).2) /\
  for_each [bitcoin; "IT"] (process_keyword Demo.lib Demo.forbidden) Demo.start =
  for_each ["IT"] (process_keyword Demo.lib Demo.forbidden)
           (push (EvSleep 1)
                 (push (EvGet (search_request Demo.forbidden bitcoin)) Demo.start)) /\
  (exists st',
      for_each [Demo.item1; Demo.item2] (process_item Demo.lib Demo.throttled bitcoin)
               Demo.start =
      for_each [Demo.item2] (process_item Demo.lib Demo.throttled bitcoin) st' /\
      same_locals Demo.start st') /\
  (exists st',
      for_each [Demo.item2; Demo.item1] (process_item Demo.lib Demo.flaky_table bitcoin)
               Demo.start = (inl OtherException, st')).
Proof.
  split; [|split; [|split]].
  - destruct (ingestion_failure_handling Demo.lib Demo.fine) as (_ & _ & H & _).
    apply (H bitcoin Demo.start (mkResponse 200 (Some "application/json") "{two}"));
      reflexivity.
  - destruct (ingestion_failure_handling Demo.lib Demo.forbidden) as (_ & _ & _ & H & _).
    apply H. vm_compute. discriminate.
  - destruct (ingestion_failure_handling Demo.lib Demo.throttled) as (_ & _ & _ & _ & H).
    destruct (H bitcoin Demo.item1 [Demo.item2] Demo.start)
      as (i & st1 & Hprep & Hloc & Hskip & _).
    exists (push (EvPutItem i) st1). split.
    + apply (Hskip "ProvisionedThroughputExceededException").
      vm_compute in Hprep. injection Hprep as <- <-. reflexivity.
    + exact Hloc.
  - destruct (ingestion_failure_handling Demo.lib Demo.flaky_table) as (_ & _ & _ & _ & H).
    destruct (H bitcoin Demo.item2 [Demo.item1] Demo.start)
      as (i & st1 & Hprep & _ & _ & Hstop).
    exists (push (EvPutItem i) st1). apply Hstop; [|discriminate].
    vm_compute in Hprep. injection Hprep as <- <-. reflexivity.
Defined.

(** C6 as the specification words it fails: in [Demo.flaky_table] the
    first write fails on the connection, not with [ClientError]; the item
    loop ends with that exception instead of going on with the next
    item. *)
Lemma write_failure_can_end_item_loop :
  ~ (forall (lib : Library) (w : World) (k : string) (item : raw_item)
            (items : list raw_item) (st : state),
        exists i st1,
          prepare_item lib w k item st = (inr i, st1) /\
          forall e,
            table_put_item w (hist st1) i = Some e ->
            for_each (item :: items) (process_item lib w k) st =
            for_each items (process_item lib w k) (push (EvPutItem i) st1)).
Proof.
  intros H.
  destruct (H Demo.lib Demo.flaky_table bitcoin Demo.item2 [Demo.item1] Demo.start)
    as (i & st1 & Hprep & Hnext).
  vm_compute in Hprep. injection Hprep as <- <-.
  specialize (Hnext OtherException eq_refl).
  vm_compute in Hnext. discriminate Hnext.
Qed.

(** The same within a run: the search finds two results, the write of the
    first fails on the connection, and the second is never written; the
    run returns all the same. *)
Example flaky_run :
  let run := lambda_handler Demo.lib Demo.flaky_table PyNone PyNone Demo.start in
  match run.1 with
  | inr r => statusCode r = 200 /\ body_total_collected (body r) = 0
  | inl _ => False
  end /\
  flat_map (fun e => match e with EvPutItem i => [link i] | _ => [] end) (hist run.2) =
  ["https://n.news.example.org/1"].
Proof. vm_compute. repeat split; reflexivity. Qed.

(** Two runs: one in which the search is refused, one in which the table
    rejects the first of two items. *)
Example forbidden_run :
  match (lambda_handler Demo.lib Demo.forbidden PyNone PyNone Demo.start).1 with
  | inr r => statusCode r = 200 /\ body_total_collected (body r) = 0
  | inl _ => False
  end.
Proof. vm_compute. split; reflexivity. Qed.

Example throttled_run :
  match (lambda_handler Demo.lib Demo.throttled PyNone PyNone Demo.start).1 with
  | inr r => statusCode r = 200 /\ body_total_collected (body r) = 1 /\
             map originallink (sample_news (body r)) = [""]
  | inl _ => False
  end.
Proof. vm_compute. repeat split; reflexivity. Qed.

(** C10.  [lambda_handler] never reads its [event] and [context]: with
    the same outside world, two invocations do the same and return the
    same, and the keywords reported are the fixed list. *)
Theorem lambda_handler_ignores_event
        (lib : Library) (w : World) (event1 context1 event2 context2 : PyValue)
        (st : state) :
  lambda_handler lib w event1 context1 st = lambda_handler lib w event2 context2 st /\
  exists r st',
    lambda_handler lib w event1 context1 st = (inr r, st') /\
    keywords_searched (body r) = [bitcoin].
Proof.
  split; [reflexivity|].
  destruct (lambda_handler_returns lib w event1 context1 st) as (r & st' & H & _ & Hk).
  eauto.
Qed.

(** The event of [test_local] asks for the keyword [IT]; the run searches
    for the fixed keyword all the same. *)
Example test_local_keywords :
  match (lambda_handler Demo.lib Demo.fine Demo.test_event PyNone Demo.start).1 with
  | inr r => keywords_searched (body r) = [bitcoin] /\ body_total_collected (body r) = 2
  | inl _ => False
  end.
Proof. vm_compute. split; reflexivity. Qed.

(** C4, as the code has it.  Missing search credentials and a store that
    cannot be reached are not fatal: [startup_event] catches whatever
    connecting to the store or reading its statistics raises and returns,
    so the service starts; and once the table handle is built, an
    invocation of [lambda_handler] returns its summary with status 200
    whatever credentials the environment holds.  What is fatal is a
    failure to build the table handle at lines 23-24: the exception
    reaches the caller before anything is collected. *)
Theorem only_table_handle_failure_is_fatal (lib : Library) (w : World) (st : state) :
  (exists st', startup_event w st = (inr tt, st')) /\
  (forall e event context,
      invoke_lambda_handler lib w (Some e) event context st = (inl e, st)) /\
  (forall event context,
      exists r st',
        invoke_lambda_handler lib w None event context st = (inr r, st') /\
        statusCode r = 200).
Proof.
  split; [|split].
  - apply startup_event_returns.
  - intros e event context. reflexivity.
  - intros event context.
    destruct (lambda_handler_returns lib w event context st) as (r & st' & H & Hs & _).
    exists r, st'. split; [|exact Hs].
    unfold invoke_lambda_handler. erewrite bind_run by reflexivity. exact H.
Qed.

(** C4 as the specification words it fails: in [Demo.misconfigured] the
    environment holds no credentials and the store cannot be reached, yet
    neither the run nor the startup raises. *)
Lemma misconfiguration_is_not_fatal :
  ~ (forall (lib : Library) (w : World) (st : state),
        environ w !! "NAVER_CLIENT_ID" = None ->
        exists e, (lambda_handler lib w PyNone PyNone st).1 = inl e) /\
  ~ (forall (w : World) (st : state),
        db_connect w (hist st) <> None ->
        exists e, (startup_event w st).1 = inl e).
Proof.
  split; intros H.
  - destruct (H Demo.lib Demo.misconfigured Demo.start eq_refl) as [e He].
    vm_compute in He. discriminate He.
  - destruct (H Demo.misconfigured Demo.start) as [e He]; [discriminate|].
    vm_compute in He. discriminate He.
Qed.

Example misconfigured_run :
  match (lambda_handler Demo.lib Demo.misconfigured PyNone PyNone Demo.start).1 with
  | inr r => statusCode r = 200 /\ body_total_collected (body r) = 0
  | inl _ => False
  end.
Proof. vm_compute. split; reflexivity. Qed.

(** ** Identifiers *)

Ltac decide_field lemma Hlt :=
  let Heq := fresh "Heq" in
  apply lemma;
  [ lia | lia
  | destruct Hlt as [Hlt | [Heq Hlt]];
    [ left; exact Hlt | right; split; [exact Heq|] ] ].

(** C7, as the code has it.  Every [uid] is the reading of
    [datetime.now()], the time in the zone of the process, printed to the
    second on sixteen characters, followed by the first eight characters
    of a fresh UUID; and of two readings that fall in different seconds,
    the later one gives the greater [uid], whatever the suffixes. *)
Theorem uid_format_and_order (lib : Library) (w : World) :
  (forall k item st,
      exists i st',
        prepare_item lib w k item st = (inr i, st') /\
        uid i = strftime_uid (local_time (clock w (hist st))) ++
                substring 0 8 (uuid_str (random_uuid w (EvNow :: hist st)))) /\
  (forall t u,
      datetime_ok t ->
      String.length (strftime_uid t) = 16%nat /\
      String.length (substring 0 8 (uuid_str u)) = 8%nat) /\
  (forall t1 t2 u1 u2,
      datetime_ok t1 -> datetime_ok t2 -> earlier_second t1 t2 ->
      String.compare (make_uid t1 u1) (make_uid t2 u2) = Lt).
Proof.
  split; [|split].
  - intros k item st.
    destruct (prepare_item_returns lib w k item st) as (i & st' & H & _ & Hu & _).
    exists i, st'. split; [exact H | exact Hu].
  - intros t u Hok. split; [now apply length_strftime_uid | apply length_uuid_prefix].
  - intros t1 t2 u1 u2 Hok1 Hok2 Hlt.
    destruct Hok1 as (Hy1 & Hm1 & Hd1 & HH1 & HM1 & HS1 & _).
    destruct Hok2 as (Hy2 & Hm2 & Hd2 & HH2 & HM2 & HS2 & _).
    unfold earlier_second, seconds_key in Hlt. simpl in Hlt.
    unfold make_uid, strftime_uid.
    rewrite !d_four, !d02_two by lia. rewrite !append_assoc.
    decide_field four_digits_field Hlt.
    decide_field two_digits_field Hlt.
    decide_field two_digits_field Hlt.
    rewrite compare_append_same.
    decide_field two_digits_field Hlt.
    decide_field two_digits_field Hlt.
    decide_field two_digits_field Hlt.
    contradiction.
Qed.

Lemma uid_format_and_order_witness :
  String.compare
    (make_uid (mkDatetime 2024 5 6 7 8 9 0) 0xffffffff000000000000000000000000)
    (make_uid (mkDatetime 2024 5 6 7 8 10 0) 0) = Lt.
Proof.
  destruct (uid_format_and_order Demo.lib Demo.fine) as (_ & _ & H).
  apply H.
  - unfold datetime_ok. simpl. lia.
  - unfold datetime_ok. simpl. lia.
  - unfold earlier_second. simpl. lia.
Defined.

(** C7 as the specification words it fails, in both halves.  Read in
    Seoul on 1 January 2024 at 20:00:00 UTC, the [uid] starts with
    [20240102_050000_], which is not the UTC timestamp.  In New York on 3
    November 2024 the reading taken at 05:30:00 UTC prints as
    [20241103_013000_] and the one taken forty minutes later as
    [20241103_011000_]: the later item gets the smaller [uid]. *)
Lemma uid_order_fails_when_clocks_change :
  ~ (forall (i : instant) (u : Z),
        datetime_ok (utc_time i) -> datetime_ok (local_time i) ->
        exists suffix,
          make_uid (local_time i) u = strftime_uid (utc_time i) ++ suffix /\
          String.length suffix = 8%nat) /\
  ~ (forall (i1 i2 : instant) (u1 u2 : Z),
        datetime_ok (utc_time i1) -> datetime_ok (utc_time i2) ->
        datetime_ok (local_time i1) -> datetime_ok (local_time i2) ->
        earlier_second (utc_time i1) (utc_time i2) ->
        String.leb (make_uid (local_time i1) u1) (make_uid (local_time i2) u2) = true).
Proof.
  split; intros H.
  - destruct (H Demo.seoul_evening 0) as (suffix & Heq & _);
      [unfold datetime_ok; simpl; lia | unfold datetime_ok; simpl; lia |].
    vm_compute in Heq. discriminate Heq.
  - specialize (H Demo.before_clocks_change Demo.after_clocks_change 0 0).
    assert (Hfalse : String.leb
                       (make_uid (local_time Demo.before_clocks_change) 0)
                       (make_uid (local_time Demo.after_clocks_change) 0) = false)
      by (vm_compute; reflexivity).
    rewrite H in Hfalse; [discriminate | | | | |];
      unfold datetime_ok, earlier_second; simpl; lia.
Qed.

(** The same within a run: the clock of [Demo.in_new_york] passes the
    change while the first of two items is handled. *)
Example run_across_clock_change :
  match (lambda_handler Demo.lib Demo.in_new_york PyNone PyNone Demo.start).1 with
  | inr r => map uid (sample_news (body r)) =
             ["20241103_013000_1234567b"; "20241103_011000_12345680"]
  | inl _ => False
  end.
Proof. vm_compute. reflexivity. Qed.

(** ** Stored text *)

(** C8 fails on the code.  The pattern [<.*?>] does not match across a
    line feed, so a tag that holds one is left in place: for the title
    [Demo.broken_title] the stored title still has the opening tag, in
    every world. *)
Theorem stored_title_keeps_tag_across_lines
        (lib : Library) (w : World) (k : string) (st : state) :
  exists i st',
    prepare_item lib w k Demo.item3 st = (inr i, st') /\
    title i = "<a" ++ String "010" "" ++ "href='https://example.com'>Bitcoin rallies" /\
    has_markup_tag (title i) = true.
Proof.
  destruct (prepare_item_returns lib w k Demo.item3 st)
    as (i & st' & H & _ & _ & _ & Ht & _).
  exists i, st'. split; [exact H|]. rewrite Ht. split; vm_compute; reflexivity.
Qed.

(** On one line the pattern does its work. *)
Example clean_html_tags_one_line :
  clean_html_tags "<b>Bitcoin</b> rallies, 1 < 2" = "Bitcoin rallies, 1 < 2".
Proof. vm_compute. reflexivity. Qed.

(** ** Reading back *)

(** C2 fails on the code.  [get_news_from_dynamodb] sorts what the scan
    returned, and the scan stops after [limit] items in the order of the
    store: with the three items of [Demo.table] and a limit of two, the
    item with the greatest [uid] is not among those returned. *)
Theorem scan_limit_misses_most_recent :
  (length Demo.table > 2)%nat /\
  get_news_from_dynamodb (fun n => inr (table_scan Demo.table n)) 2 =
    ReadOk 2 [ project (Demo.stored "20240506_070810_bbbbbbbb");
               project (Demo.stored "20240506_070809_aaaaaaaa") ] /\
  most_recent Demo.table 2 =
    [ project (Demo.stored "20240506_070811_cccccccc");
      project (Demo.stored "20240506_070810_bbbbbbbb") ].
Proof. split; [simpl; lia|]. split; vm_compute; reflexivity. Qed.

(** * Further properties of the code *)

(** ** [clean_html_tags] *)

Section CleaningMore.

Lemma has_line_tag_cons (c : ascii) (s : string) :
  has_line_tag (String c s) =
  (Ascii.eqb c "<" && match close_tag s with Some _ => true | None => false end)
  || has_line_tag s.
Proof. reflexivity. Qed.

(** Cleaning does not bring a ['>'] onto a line that had none. *)
Lemma close_tag_clean_None (s : string) :
  close_tag s = None -> close_tag (clean_html_tags s) = None.
Proof.
  induction s as [|e s IH]; [reflexivity|].
  cbn [close_tag]. destruct (Ascii.eqb e ">") eqn:Hgt; [discriminate|].
  destruct (Ascii.eqb e "010") eqn:Hlf.
  - intros _. rewrite clean_html_tags_cons.
    destruct (Ascii.eqb e "<") eqn:Hlt.
    + apply Ascii.eqb_eq in Hlt. subst e. discriminate Hlf.
    + cbn [close_tag]. now rewrite Hgt, Hlf.
  - intros Hnone. rewrite clean_html_tags_cons, Hnone.
    assert (Hkeep : close_tag (String e (clean_html_tags s)) = None)
      by (cbn [close_tag]; rewrite Hgt, Hlf; now apply IH).
    now destruct (Ascii.eqb e "<").
Qed.

Lemma clean_html_tags_leaves_no_line_tag (s : string) :
  has_line_tag (clean_html_tags s) = false.
Proof.
  remember (String.length s) as n eqn:Hn.
  revert s Hn. induction n as [n IH] using lt_wf_ind. intros [|c rest] Hn.
  - reflexivity.
  - simpl in Hn. rewrite clean_html_tags_cons.
    assert (Hrest : has_line_tag (clean_html_tags rest) = false)
      by (apply (IH (String.length rest)); [lia | reflexivity]).
    destruct (Ascii.eqb c "<") eqn:Hc.
    + destruct (close_tag rest) as [t|] eqn:Hclose.
      * destruct (close_tag_Some rest t Hclose) as [Hlen _].
        apply (IH (String.length t)); [lia | reflexivity].
      * rewrite has_line_tag_cons, Hrest, (close_tag_clean_None rest Hclose).
        now rewrite andb_false_r.
    + now rewrite has_line_tag_cons, Hc, Hrest.
Qed.

Lemma clean_html_tags_fixes_clean_text (s : string) :
  has_line_tag s = false -> clean_html_tags s = s.
Proof.
  induction s as [|c s IH]; [reflexivity|].
  rewrite has_line_tag_cons, clean_html_tags_cons.
  intros H. apply orb_false_iff in H as [Hhead Htail].
  rewrite (IH Htail).
  destruct (Ascii.eqb c "<"); [|reflexivity].
  destruct (close_tag s); [discriminate Hhead | reflexivity].
Qed.

End CleaningMore.

(** X1.  Whatever the text, [clean_html_tags] leaves no ['<'] that is
    followed by a ['>'] on the same line: nothing the pattern [<.*?>]
    matches is left. *)
Theorem cleaned_text_has_no_tag_on_a_line (text : string) :
  has_line_tag (clean_html_tags text) = false.
Proof. apply clean_html_tags_leaves_no_line_tag. Qed.

(** X2.  Cleaning twice is cleaning once: removing the matches never
    brings a new one about. *)
Theorem clean_html_tags_idempotent (text : string) :
  clean_html_tags (clean_html_tags text) = clean_html_tags text.
Proof.
  apply clean_html_tags_fixes_clean_text, clean_html_tags_leaves_no_line_tag.
Qed.

(** X3.  A text in which no ['<'] is followed by a ['>'] on the same line
    is returned as it is; a lone ['<'] or ['>'] is not touched. *)
Theorem text_without_tag_is_unchanged (text : string) :
  has_line_tag text = false -> clean_html_tags text = text.
Proof. apply clean_html_tags_fixes_clean_text. Qed.

Lemma text_without_tag_is_unchanged_witness :
  clean_html_tags "5 > 3 and 1 < 2, Q&amp;A" = "5 > 3 and 1 < 2, Q&amp;A".
Proof.
  apply (text_without_tag_is_unchanged "5 > 3 and 1 < 2, Q&amp;A").
  vm_compute. reflexivity.
Defined.

(** X4.  When the text has no line feed, the cleaned text holds no tag at
    all: no ['<'] with a ['>'] anywhere after it. *)
Theorem one_line_text_is_cleaned (text : string) :
  one_line text -> has_markup_tag (clean_html_tags text) = false.
Proof. apply clean_html_tags_one_line_ok. Qed.

Lemma one_line_text_is_cleaned_witness :
  has_markup_tag (clean_html_tags "<b>Bitcoin</b> <i>rallies</i>") = false.
Proof.
  apply (one_line_text_is_cleaned "<b>Bitcoin</b> <i>rallies</i>").
  vm_compute. reflexivity.
Defined.

(** ** What a computation keeps *)

Section Keeping.

Variable R : state -> state -> Prop.
Hypothesis Rrefl : forall st, R st st.
Hypothesis Rtrans : forall a b c, R a b -> R b c -> R a c.

Lemma keeps_ret {A} (a : A) : keeps R (ret a).
Proof. intros st. apply Rrefl. Qed.

Lemma keeps_raise {A} (e : exn) : keeps R (raise (A := A) e).
Proof. intros st. apply Rrefl. Qed.

Lemma keeps_bind {A B} (m : M A) (k : A -> M B) :
  keeps R m -> (forall a, keeps R (k a)) -> keeps R (bind m k).
Proof.
  intros Hm Hk st. specialize (Hm st). unfold bind.
  destruct (m st) as [[e|a] st1]; simpl in *; [exact Hm|].
  eapply Rtrans; [exact Hm | apply Hk].
Qed.

Lemma keeps_try_except {A} (m : M A) (h : exn -> option (M A)) :
  keeps R m -> (forall e h', h e = Some h' -> keeps R h') ->
  keeps R (try_except m h).
Proof.
  intros Hm Hh st. specialize (Hm st). unfold try_except.
  destruct (m st) as [[e|a] st1]; simpl in *; [|exact Hm].
  destruct (h e) as [h'|] eqn:He; [|exact Hm].
  eapply Rtrans; [exact Hm | now apply (Hh e)].
Qed.

Lemma keeps_for_each {A} (l : list A) (body : A -> M unit) :
  (forall x, keeps R (body x)) -> keeps R (for_each l body).
Proof.
  intros Hbody. induction l as [|x l IH]; simpl.
  - apply keeps_ret.
  - apply keeps_bind; [apply Hbody | intros _; exact IH].
Qed.

Variable lib : Library.
Variable w : World.

(** Every interaction but the pause keeps the relation. *)
Hypothesis Rpush : forall e st, (forall n, e <> EvSleep n) -> R st (push e st).

Lemma keeps_datetime_now : keeps R (datetime_now w).
Proof. intros st. apply Rpush. discriminate. Qed.

Lemma keeps_uuid4 : keeps R (uuid4 w).
Proof. intros st. apply Rpush. discriminate. Qed.

Lemma keeps_requests_get (r : request) : keeps R (requests_get w r).
Proof. intros st. apply Rpush. discriminate. Qed.

Lemma keeps_raise_for_status (r : response) : keeps R (raise_for_status r).
Proof. unfold raise_for_status. destruct (_ && _); intros st; apply Rrefl. Qed.

Lemma keeps_put_object (a : put_object_args) : keeps R (put_object w a).
Proof. intros st. apply Rpush. discriminate. Qed.

Lemma keeps_put_item (i : news_item) : keeps R (put_item w i).
Proof. intros st. apply Rpush. discriminate. Qed.

Ltac keeps_steps :=
  repeat
    match goal with
    | |- keeps _ (bind _ _) => apply keeps_bind; [|intros ?]
    | |- keeps _ (ret _) => apply keeps_ret
    | |- keeps _ (raise _) => apply keeps_raise
    | |- keeps _ (datetime_now _) => apply keeps_datetime_now
    | |- keeps _ (uuid4 _) => apply keeps_uuid4
    | |- keeps _ (requests_get _ _) => apply keeps_requests_get
    | |- keeps _ (raise_for_status _) => apply keeps_raise_for_status
    | |- keeps _ (put_object _ _) => apply keeps_put_object
    | |- keeps _ (put_item _ _) => apply keeps_put_item
    | |- keeps _ (if ?b then _ else _) => destruct b
    end.

Lemma keeps_extract_image_from_article (article_url : string) :
  keeps R (extract_image_from_article lib w article_url).
Proof.
  unfold extract_image_from_article.
  apply keeps_try_except; [keeps_steps|].
  intros e h' [= <-]. apply keeps_ret.
Qed.

Lemma keeps_download_and_upload_image (image_url uid : string) :
  keeps R (download_and_upload_image lib w image_url uid).
Proof.
  unfold download_and_upload_image.
  apply keeps_try_except; [cbv zeta; keeps_steps|].
  intros e h' [= <-]. apply keeps_ret.
Qed.

Lemma keeps_prepare_item (k : string) (item : raw_item) :
  keeps R (prepare_item lib w k item).
Proof.
  unfold prepare_item. cbv zeta. keeps_steps.
  - apply keeps_extract_image_from_article.
  - apply keeps_download_and_upload_image.
Qed.

(** The item loop's body, when counting an item keeps the relation too. *)
Lemma keeps_process_item (k : string) (item : raw_item) :
  (forall i st, R st (count_item i st).2) ->
  keeps R (process_item lib w k item).
Proof.
  intros Rcount. unfold process_item.
  apply keeps_bind; [apply keeps_prepare_item | intros i].
  apply keeps_bind.
  - apply keeps_try_except; [keeps_steps|].
    intros [| |] h'; intros [= <-]. apply keeps_ret.
  - intros [|]; [intros st; apply Rcount | apply keeps_ret].
Qed.

(** The [try] of the keyword loop's body, given what the item loop's body
    keeps. *)
Lemma keeps_search_and_store (k : string) :
  (forall item, keeps R (process_item lib w k item)) ->
  keeps R
    (try_except
       (bind (requests_get w (search_request w k))
             (fun response =>
                if status_code response =? 200 then
                  match json_items lib (content response) with
                  | Some items => for_each items (process_item lib w k)
                  | None => raise OtherException
                  end
                else ret tt))
       (fun _ => Some (ret tt))).
Proof.
  intros Hitem.
  apply keeps_try_except.
  - apply keeps_bind; [apply keeps_requests_get | intros response].
    destruct (status_code response =? 200); [|apply keeps_ret].
    destruct (json_items lib (content response));
      [apply keeps_for_each, Hitem | apply keeps_raise].
  - intros e h' [= <-]. apply keeps_ret.
Qed.

End Keeping.

Lemma process_keyword_unfold (lib : Library) (w : World) (k : string) :
  process_keyword lib w k =
  bind (try_except
          (bind (requests_get w (search_request w k))
                (fun response =>
                   if status_code response =? 200 then
                     match json_items lib (content response) with
                     | Some items => for_each items (process_item lib w k)
                     | None => raise OtherException
                     end
                   else ret tt))
          (fun _ => Some (ret tt)))
       (fun _ => time_sleep 1).
Proof. reflexivity. Qed.

Section RelationFacts.

Lemma grows_refl st : grows st st.
Proof. split; [apply same_locals_refl | now exists []]. Qed.

Lemma grows_trans a b c : grows a b -> grows b c -> grows a c.
Proof.
  intros [Hl1 [l1 H1]] [Hl2 [l2 H2]]. split.
  - eapply same_locals_trans; eassumption.
  - exists (l2 ++ l1)%list. rewrite H2, H1. now rewrite <- List.app_assoc.
Qed.

Lemma grows_push e st : grows st (push e st).
Proof. split; [apply same_locals_push | now exists [e]]. Qed.

Lemma same_sleeps_refl st : same_sleeps st st.
Proof. reflexivity. Qed.

Lemma same_sleeps_trans a b c : same_sleeps a b -> same_sleeps b c -> same_sleeps a c.
Proof. unfold same_sleeps. congruence. Qed.

Lemma same_sleeps_push e st : (forall n, e <> EvSleep n) -> same_sleeps st (push e st).
Proof. intros He. unfold same_sleeps. destruct e; simpl; try reflexivity. now destruct (He seconds). Qed.

Lemma maintains_refl (P : state -> Prop) st : maintains P st st.
Proof. intros H. exact H. Qed.

Lemma maintains_trans (P : state -> Prop) a b c :
  maintains P a b -> maintains P b c -> maintains P a c.
Proof. unfold maintains. auto. Qed.

End RelationFacts.

(** ** [extract_image_from_article] *)

Section Finding.

Variables p q : Tag -> bool.

(** What [find] returns satisfies the filter, and lies in the tree. *)
Lemma find_from_sound :
  forall t r, find_from p t = Some r ->
              p r = true /\ (every_element q t = true -> every_element q r = true).
Proof.
  fix IH 1. intros [name attrs children] r. cbn [find_from tag_children].
  destruct (p (mkTag name attrs children)) eqn:Hp.
  - intros [= <-]. auto.
  - cbn [every_element tag_children]. intros Hfind.
    assert (Hch : p r = true /\
                  (forallb (every_element q) children = true ->
                   every_element q r = true)).
    { clear Hp. revert Hfind. induction children as [|c cs IHcs]; [discriminate|].
      destruct (find_from p c) as [r'|] eqn:Hc.
      - intros [= ->]. destruct (IH c r Hc) as [Hpr Hq]. split; [exact Hpr|].
        cbn [forallb]. intros H. apply andb_true_iff in H as [H _]. now apply Hq.
      - intros Hrest. destruct (IHcs Hrest) as [Hpr Hq]. split; [exact Hpr|].
        cbn [forallb]. intros H. apply andb_true_iff in H as [_ H]. now apply Hq. }
    destruct Hch as [Hpr Hq]. split; [exact Hpr|].
    intros H. apply andb_true_iff in H as [_ H]. now apply Hq.
Qed.

Lemma find_among_sound (l : list Tag) (r : Tag) :
  find_among p l = Some r ->
  p r = true /\ (forallb (every_element q) l = true -> every_element q r = true).
Proof.
  induction l as [|c cs IH]; [discriminate|]. cbn [find_among forallb].
  destruct (find_from p c) as [r'|] eqn:Hc.
  - intros [= ->]. destruct (find_from_sound c r Hc) as [Hpr Hq]. split; [exact Hpr|].
    intros H. apply andb_true_iff in H as [H _]. now apply Hq.
  - intros Hrest. destruct (IH Hrest) as [Hpr Hq]. split; [exact Hpr|].
    intros H. apply andb_true_iff in H as [_ H]. now apply Hq.
Qed.

End Finding.

Lemma every_element_here (q : Tag -> bool) (t : Tag) :
  every_element q t = true -> q t = true.
Proof. destruct t. cbn [every_element]. intros H. now apply andb_true_iff in H. Qed.

(** On a page without [img] and [meta] elements no strategy finds
    anything. *)
Lemma img_patterns_nothing (soup : Soup) :
  no_picture_element soup = true ->
  img_patterns soup = [None; None; None; None; None].
Proof.
  intros Hno. unfold no_picture_element in Hno.
  set (q := fun t => negb (named "img" t) && negb (named "meta" t)) in *.
  assert (Himg : forall f, soup_find (fun t => named "img" t && f t) soup = None).
  { intros f. destruct (soup_find _ soup) as [r|] eqn:Hf; [|reflexivity].
    destruct (find_among_sound _ q soup r Hf) as [Hp Hq].
    apply every_element_here in Hq; [|exact Hno]. unfold q in Hq.
    apply andb_true_iff in Hp as [Hp _]. rewrite Hp in Hq. discriminate Hq. }
  assert (Hmeta : forall f, soup_find (fun t => named "meta" t && f t) soup = None).
  { intros f. destruct (soup_find _ soup) as [r|] eqn:Hf; [|reflexivity].
    destruct (find_among_sound _ q soup r Hf) as [Hp Hq].
    apply every_element_here in Hq; [|exact Hno]. unfold q in Hq.
    apply andb_true_iff in Hp as [Hp _]. rewrite Hp in Hq.
    rewrite andb_false_r in Hq. discriminate Hq. }
  unfold img_patterns. rewrite Himg, !Hmeta.
  assert (Hany : soup_find (named "img") soup = None).
  { destruct (soup_find _ soup) as [r|] eqn:Hf; [|reflexivity].
    destruct (find_among_sound _ q soup r Hf) as [Hp Hq].
    apply every_element_here in Hq; [|exact Hno]. unfold q in Hq.
    rewrite Hp in Hq. discriminate Hq. }
  rewrite Hany. clear Hany.
  destruct (soup_find (fun t => named "div" t &&
                         class_matches ["article"; "content"; "body"] t) soup)
    as [d|] eqn:Hdiv; [|reflexivity].
  destruct (find_among_sound _ q soup d Hdiv) as [_ Hd]. specialize (Hd Hno).
  unfold Tag_find. destruct (find_among (named "img") (tag_children d)) as [r|] eqn:Hr;
    [|reflexivity].
  destruct (find_among_sound _ q (tag_children d) r Hr) as [Hp Hq].
  destruct d as [dn da dc]. cbn [every_element tag_children] in *.
  apply andb_true_iff in Hd as [_ Hd].
  apply every_element_here in Hq; [|exact Hd]. unfold q in Hq.
  rewrite Hp in Hq. discriminate Hq.
Qed.

(** X5.  When fetching the article fails, because the request raises or
    the status is an error status (400 to 599), the locator returns [None]
    without raising, having made that one request and nothing else. *)
Theorem locator_fails_softly
        (lib : Library) (w : World) (article_url : string) (st : state) :
  match http w (hist st) (article_request article_url) with
  | inl _ => True
  | inr r => 400 <= status_code r < 600
  end ->
  extract_image_from_article lib w article_url st =
  (inr None, push (EvGet (article_request article_url)) st).
Proof.
  intros Hfail. rewrite extract_image_from_article_eq.
  destruct (http w (hist st) _) as [e|r]; [reflexivity|].
  replace ((400 <=? status_code r) && (status_code r <? 600)) with true; [reflexivity|].
  symmetry. apply andb_true_iff. split; [apply Z.leb_le | apply Z.ltb_lt]; lia.
Qed.

Lemma locator_fails_softly_witness :
  extract_image_from_article Demo.lib Demo.fine "https://news.example.com/missing"
                             Demo.start =
  (inr None, push (EvGet (article_request "https://news.example.com/missing")) Demo.start).
Proof.
  apply (locator_fails_softly Demo.lib Demo.fine "https://news.example.com/missing"
                              Demo.start).
  exact I.
Defined.

(** X6.  On a page that has no [img] element and no [meta] element the
    locator returns [None], whatever else the page holds. *)
Theorem locator_finds_nothing_without_pictures
        (lib : Library) (w : World) (article_url : string) (st : state)
        (response : response) :
  http w (hist st) (article_request article_url) = inr response ->
  no_picture_element (html_parser lib (content response)) = true ->
  (extract_image_from_article lib w article_url st).1 = inr None.
Proof.
  intros Hget Hno. rewrite extract_image_from_article_eq, Hget. cbn [fst].
  destruct (_ && _); [reflexivity|].
  unfold locate_in_soup. now rewrite (img_patterns_nothing _ Hno).
Qed.

Lemma locator_finds_nothing_without_pictures_witness :
  (extract_image_from_article Demo.text_lib Demo.text_only
                              "https://news.example.com/text" Demo.start).1 = inr None.
Proof.
  apply (locator_finds_nothing_without_pictures Demo.text_lib Demo.text_only
           "https://news.example.com/text" Demo.start
           (mkResponse 200 (Some "text/html") "<text>")).
  - reflexivity.
  - vm_compute. reflexivity.
Defined.

(** ** [download_and_upload_image] *)

(** X7.  When the download fails, because the request raises or the
    status is an error status (400 to 599), the archiver returns [None]
    without raising: the clock is not read and nothing is uploaded. *)
Theorem archiver_download_fails_softly
        (lib : Library) (w : World) (image_url uid : string) (st : state) :
  match http w (hist st) (image_request image_url) with
  | inl _ => True
  | inr r => 400 <= status_code r < 600
  end ->
  download_and_upload_image lib w image_url uid st =
  (inr None, push (EvGet (image_request image_url)) st).
Proof.
  intros Hfail. unfold download_and_upload_image, image_request in *.
  unfold_monad. unfold_calls. unfold_monad.
  destruct (http w (hist st) _) as [e|r]; [reflexivity|].
  replace ((400 <=? status_code r) && (status_code r <? 600)) with true; [reflexivity|].
  symmetry. apply andb_true_iff. split; [apply Z.leb_le | apply Z.ltb_lt]; lia.
Qed.

Lemma archiver_download_fails_softly_witness :
  download_and_upload_image Demo.lib Demo.fine "https://img.example.com/none.png" "U"
                            Demo.start =
  (inr None, push (EvGet (image_request "https://img.example.com/none.png")) Demo.start).
Proof.
  apply (archiver_download_fails_softly Demo.lib Demo.fine
           "https://img.example.com/none.png" "U" Demo.start).
  exact I.
Defined.

(** X8.  The archiver never raises and never touches the variables of the
    handler; and when it returns a URL, the last thing it did was an upload
    that object storage accepted, under the key the URL ends in.  A refused
    upload gives [None]. *)
Theorem archiver_returns_url_only_after_upload
        (lib : Library) (w : World) (image_url uid : string) (st : state) :
  exists r st',
    download_and_upload_image lib w image_url uid st = (inr r, st') /\
    grows st st' /\
    forall url, r = Some url ->
                exists a, hist st' = EvPutObject a :: EvNow ::
                                       EvGet (image_request image_url) :: hist st /\
                          s3_put_object w (EvNow :: EvGet (image_request image_url)
                                                 :: hist st) a = None /\
                          url = cloudfront_base ++ Key a.
Proof.
  pose proof (keeps_download_and_upload_image grows grows_refl grows_trans lib w
                (fun e st _ => grows_push e st) image_url uid st) as Hgrows.
  revert Hgrows.
  unfold download_and_upload_image, image_request.
  unfold_monad. unfold_calls. unfold_monad.
  destruct (http w (hist st) _) as [e|response];
    [intros Hg; eexists _, _; split; [reflexivity|]; split; [exact Hg | discriminate]|].
  destruct ((400 <=? status_code response) && (status_code response <? 600));
    [intros Hg; eexists _, _; split; [reflexivity|]; split; [exact Hg | discriminate]|].
  destruct (negb (Py.contains "image" _));
    [intros Hg; eexists _, _; split; [reflexivity|]; split; [exact Hg | discriminate]|].
  cbn [hist push]. destruct (s3_put_object w _ _) as [e|] eqn:Hput;
    intros Hg; eexists _, _; (split; [reflexivity|]); (split; [exact Hg|]).
  - discriminate.
  - intros url [= <-]. eexists. split; [reflexivity|]. split; [exact Hput | reflexivity].
Qed.

Lemma archiver_returns_url_only_after_upload_witness :
  exists a,
    hist (download_and_upload_image Demo.lib Demo.fine "https://img.example.com/a1.png"
            "U" Demo.start).2 =
      EvPutObject a :: EvNow :: EvGet (image_request "https://img.example.com/a1.png")
                  :: hist Demo.start /\
    s3_put_object Demo.fine
                  (EvNow :: EvGet (image_request "https://img.example.com/a1.png")
                         :: hist Demo.start) a = None /\
    "https://d3nvut5aamy17o.cloudfront.net/images/news/2024/05/06/U.png" =
      cloudfront_base ++ Key a.
Proof.
  destruct (archiver_returns_url_only_after_upload Demo.lib Demo.fine
              "https://img.example.com/a1.png" "U" Demo.start)
    as (r & st' & Heq & _ & H).
  rewrite Heq. cbn [snd].
  vm_compute in Heq. injection Heq as <- <-.
  apply H. reflexivity.
Defined.

(** ** [lambda_handler]: one search result *)

Section ItemFacts.

Variable lib : Library.
Variable w : World.

Lemma extract_result_accepted (article_url : string) (st : state) (u : string) :
  (extract_image_from_article lib w article_url st).1 = inr (Some u) ->
  mentions_image_extension u = true.
Proof.
  rewrite extract_image_from_article_eq. cbn [fst].
  destruct (http w (hist st) _) as [e|response]; [discriminate|].
  destruct (_ && _); [discriminate|].
  intros [= H]. rewrite locate_in_soup_first_accepted in H.
  now apply first_accepted_Some in H.
Qed.

Lemma prepare_item_grows (k : string) (item : raw_item) (st : state) :
  grows st (prepare_item lib w k item st).2.
Proof.
  apply (keeps_prepare_item grows grows_refl grows_trans lib w
           (fun e st _ => grows_push e st)).
Qed.

(** The item that is assembled, field by field. *)
Lemma prepare_item_fields (k : string) (item : raw_item) (st : state) :
  exists i st',
    prepare_item lib w k item st = (inr i, st') /\
    originallink i = default "" (raw_originallink item) /\
    content_type i = "news" /\ source i = "naver_api" /\
    (cloudfront_image_url i = None \/ Py.truthy (image_url i) = true) /\
    (forall u, image_url i = Some u -> mentions_image_extension u = true).
Proof.
  unfold prepare_item.
  erewrite bind_run by reflexivity.
  erewrite bind_run by reflexivity.
  cbv beta zeta.
  lazymatch goal with
  | |- context [@bind ?A ?B ?m ?k ?s] =>
      assert (Himg : exists imgs st2,
                 m s = (inr imgs, st2) /\
                 (imgs.2 = None \/ Py.truthy imgs.1 = true) /\
                 (forall u, imgs.1 = Some u -> mentions_image_extension u = true))
  end.
  { destruct (Py.truthy (Some _)).
    - erewrite bind_run by apply extract_image_from_article_eq.
      lazymatch goal with
      | |- context [Py.truthy ?e] =>
          assert (Hacc : forall u, e = Some u -> mentions_image_extension u = true);
          [ intros u Hu;
            apply (extract_result_accepted (default "" (raw_originallink item))
                     (push EvUuid4 (push EvNow st)));
            rewrite extract_image_from_article_eq; cbn [fst]; now f_equal
          | destruct (Py.truthy e) eqn:Htruthy ]
      end.
      + match goal with
        | |- context [@bind ?A ?B (download_and_upload_image lib w ?u ?i) ?k ?s] =>
            destruct (download_and_upload_image_returns lib w u i s)
              as (r & st' & Heq & _)
        end.
        erewrite bind_run by exact Heq.
        eexists _, _. split; [reflexivity|]. split; [right; exact Htruthy | exact Hacc].
      + eexists _, _. split; [reflexivity|]. split; [now left | exact Hacc].
    - eexists _, _. split; [reflexivity|]. split; [now left | discriminate]. }
  destruct Himg as (imgs & st2 & Himg & Hcdn & Hacc).
  erewrite bind_run by exact Himg.
  erewrite bind_run by reflexivity.
  erewrite bind_run by reflexivity.
  eexists _, _. split; [reflexivity|]. cbn.
  repeat split; [exact Hcdn | exact Hacc].
Qed.

End ItemFacts.

(** X9.  A search result without an original link (the key is missing or
    its value is empty) is assembled without any request: the clock and
    the UUID source are read twice each and nothing else happens; both
    image fields of the item are [None]. *)
Theorem item_without_link_makes_no_request
        (lib : Library) (w : World) (k : string) (item : raw_item) (st : state) :
  default "" (raw_originallink item) = "" ->
  exists i,
    prepare_item lib w k item st =
      (inr i, push EvNow (push EvUuid4 (push EvUuid4 (push EvNow st)))) /\
    image_url i = None /\ cloudfront_image_url i = None /\ originallink i = "".
Proof.
  intros Hlink. eexists. split.
  - unfold prepare_item. rewrite Hlink. reflexivity.
  - cbn. auto.
Qed.

Lemma item_without_link_makes_no_request_witness :
  exists i,
    prepare_item Demo.lib Demo.fine bitcoin Demo.item2 Demo.start =
      (inr i, push EvNow (push EvUuid4 (push EvUuid4 (push EvNow Demo.start)))) /\
    image_url i = None /\ cloudfront_image_url i = None /\ originallink i = "".
Proof.
  apply (item_without_link_makes_no_request Demo.lib Demo.fine bitcoin Demo.item2
                                            Demo.start).
  reflexivity.
Defined.

(** X10.  In every item the handler assembles, a CDN URL comes with an
    original image URL ([cloudfront_image_url] set implies [image_url]
    set), and an image URL that is set is one the locator accepted: it
    mentions one of the image extensions. *)
Theorem item_image_fields_are_consistent
        (lib : Library) (w : World) (k : string) (item : raw_item) (st : state) :
  exists i st',
    prepare_item lib w k item st = (inr i, st') /\
    (forall url, cloudfront_image_url i = Some url ->
                 exists u, image_url i = Some u /\ u <> "") /\
    (forall u, image_url i = Some u -> mentions_image_extension u = true).
Proof.
  destruct (prepare_item_fields lib w k item st)
    as (i & st' & Heq & _ & _ & _ & Hcdn & Hacc).
  exists i, st'. split; [exact Heq|]. split; [|exact Hacc].
  intros url Hurl. destruct Hcdn as [Hnone | Htruthy]; [congruence|].
  destruct (image_url i) as [u|]; [|discriminate].
  exists u. split; [reflexivity|]. intros ->. discriminate.
Qed.

Lemma item_image_fields_are_consistent_witness :
  (exists u, Some "https://img.example.com/a1.png" = Some u /\ u <> "") /\
  mentions_image_extension "https://img.example.com/a1.png" = true.
Proof.
  destruct (item_image_fields_are_consistent Demo.lib Demo.fine bitcoin Demo.item1
              Demo.start) as (i & st' & Heq & Hcdn & Hacc).
  vm_compute in Heq. injection Heq as <- <-.
  split.
  - apply (Hcdn "https://d3nvut5aamy17o.cloudfront.net/images/news/2024/05/06/20240506_070809_12345679.png").
    reflexivity.
  - apply Hacc. reflexivity.
Defined.

(** ** [lambda_handler]: the run *)

Lemma in_take_in {A} (n : nat) (l : list A) (x : A) : In x (take n l) -> In x l.
Proof.
  revert l. induction n as [|n IH]; intros [|y l]; cbn; try contradiction.
  intros [-> | H]; [now left | right; now apply IH].
Qed.

Section RunFacts.

Variable lib : Library.
Variable w : World.

Lemma counted_push e st : (forall n, e <> EvSleep n) -> maintains counted st (push e st).
Proof. intros _ H. exact H. Qed.

Lemma counted_count_item i st : maintains counted st (count_item i st).2.
Proof.
  unfold maintains, counted. cbn. intros ->.
  rewrite List.length_app. cbn. lia.
Qed.

Lemma process_keyword_counted (k : string) :
  keeps (maintains counted) (process_keyword lib w k).
Proof.
  rewrite process_keyword_unfold.
  apply keeps_bind;
    [apply maintains_trans | | intros _ st H; exact H].
  apply keeps_search_and_store;
    [apply maintains_refl | apply maintains_trans | exact counted_push |].
  intros item. apply keeps_process_item;
    [apply maintains_refl | apply maintains_trans | exact counted_push
    | exact counted_count_item].
Qed.

Lemma all_written_grows st st' :
  grows st st' -> maintains (all_written w) st st'.
Proof.
  intros [[Hnews _] [l Hl]] Hinv i Hin. rewrite Hnews in Hin.
  destruct (Hinv i Hin) as [(h1 & h2 & Hh & Hput) Hconst].
  split; [|exact Hconst].
  exists (l ++ h1)%list, h2. split; [|exact Hput].
  rewrite Hl, Hh. now rewrite <- List.app_assoc.
Qed.

Lemma all_written_push e st :
  (forall n, e <> EvSleep n) -> maintains (all_written w) st (push e st).
Proof. intros _. apply all_written_grows, grows_push. Qed.

Lemma process_item_all_written (k : string) (item : raw_item) :
  keeps (maintains (all_written w)) (process_item lib w k item).
Proof.
  intros st Hinv.
  destruct (prepare_item_fields lib w k item st)
    as (i & st1 & Hprep & _ & Hct & Hsrc & _).
  pose proof (prepare_item_grows lib w k item st) as Hgrows.
  rewrite Hprep in Hgrows. cbn [snd] in Hgrows.
  assert (Hinv1 : all_written w (push (EvPutItem i) st1)).
  { apply (all_written_grows st); [|exact Hinv].
    eapply grows_trans; [exact Hgrows | apply grows_push]. }
  rewrite (process_item_eq lib w k item st st1 i Hprep).
  destruct (table_put_item w (hist st1) i) as [[| |]|] eqn:Hput; cbn [snd];
    try exact Hinv1.
  intros i' Hin. cbn in Hin. apply in_app_iff in Hin as [Hold | [<- | []]].
  - apply (Hinv1 i' Hold).
  - split; [|split; assumption].
    exists [], (hist st1). split; [reflexivity | exact Hput].
Qed.

Lemma process_keyword_all_written (k : string) :
  keeps (maintains (all_written w)) (process_keyword lib w k).
Proof.
  rewrite process_keyword_unfold.
  apply keeps_bind; [apply maintains_trans | |].
  - apply keeps_search_and_store;
      [apply maintains_refl | apply maintains_trans | exact all_written_push
      | apply process_item_all_written].
  - intros _ st. apply all_written_grows, grows_push.
Qed.

Lemma process_keyword_sleeps (k : string) (st : state) :
  sleeps (hist (process_keyword lib w k st).2) = S (sleeps (hist st)).
Proof.
  rewrite process_keyword_unfold.
  pose proof (keeps_search_and_store same_sleeps same_sleeps_refl same_sleeps_trans
                lib w same_sleeps_push k) as Htry.
  lazymatch type of Htry with
  | _ -> keeps _ ?m =>
      assert (Hkeeps : keeps same_sleeps m);
      [ apply Htry; intros item;
        apply (keeps_process_item same_sleeps same_sleeps_refl same_sleeps_trans
                 lib w same_sleeps_push); intros i s; reflexivity
      | destruct (try_except_all
                    (bind (requests_get w (search_request w k))
                          (fun response =>
                             if status_code response =? 200 then
                               match json_items lib (content response) with
                               | Some items => for_each items (process_item lib w k)
                               | None => raise OtherException
                               end
                             else ret tt)) st) as [st1 Heq];
        specialize (Hkeeps st); rewrite Heq in Hkeeps; cbn [snd] in Hkeeps;
        erewrite bind_run by exact Heq ]
  end.
  cbn. now rewrite Hkeeps.
Qed.

End RunFacts.

(** X11.  The count the run reports is the number of items it put into
    its list of collected items, and the sample it returns is made of the
    first items of that list, three at most. *)
Theorem summary_counts_collected_items
        (lib : Library) (w : World) (event context : PyValue) (st : state) :
  exists r st',
    lambda_handler lib w event context st = (inr r, st') /\
    body_total_collected (body r) = Z.of_nat (length (collected_news st')) /\
    sample_news (body r) = take 3 (collected_news st') /\
    (length (sample_news (body r)) <= 3)%nat.
Proof.
  destruct (lambda_handler_run lib w event context st) as (st2 & Hloop & Hrun).
  eexists _, _. split; [exact Hrun|]. cbn.
  assert (Hcount : counted st2).
  { pose proof (keeps_for_each (maintains counted) (maintains_refl counted)
                  (maintains_trans counted) [bitcoin] (process_keyword lib w)
                  (process_keyword_counted lib w)
                  (push EvNow (mkState (hist st) [] 0))) as H.
    rewrite Hloop in H. apply H. reflexivity. }
  split; [exact Hcount|]. split; [reflexivity|].
  rewrite length_take. lia.
Qed.

(** X12.  Every item the run reports as collected was passed to
    [put_item], which accepted it, and carries [content_type = 'news'] and
    [source = 'naver_api']; this holds of the whole list and so of the
    sample in the summary. *)
Theorem collected_items_were_written
        (lib : Library) (w : World) (event context : PyValue) (st : state) :
  exists r st',
    lambda_handler lib w event context st = (inr r, st') /\
    forall i, In i (collected_news st') \/ In i (sample_news (body r)) ->
              (exists h1 h2, hist st' = (h1 ++ EvPutItem i :: h2)%list /\
                             table_put_item w h2 i = None) /\
              content_type i = "news" /\ source i = "naver_api".
Proof.
  destruct (lambda_handler_run lib w event context st) as (st2 & Hloop & Hrun).
  eexists _, _. split; [exact Hrun|]. cbn [body sample_news].
  assert (Hinv : all_written w (push EvNow st2)).
  { apply (all_written_grows w st2); [apply grows_push|].
    pose proof (keeps_for_each (maintains (all_written w))
                  (maintains_refl _) (maintains_trans _) [bitcoin]
                  (process_keyword lib w) (process_keyword_all_written lib w)
                  (push EvNow (mkState (hist st) [] 0))) as H.
    rewrite Hloop in H. apply H. intros i []. }
  intros i [Hin | Hin]; apply Hinv; [exact Hin|].
  cbn. now apply in_take_in in Hin.
Qed.

Lemma collected_items_were_written_witness :
  match (lambda_handler Demo.lib Demo.fine PyNone PyNone Demo.start).1 with
  | inr r => Forall (fun i => content_type i = "news" /\ source i = "naver_api")
                    (sample_news (body r))
  | inl _ => False
  end.
Proof.
  destruct (collected_items_were_written Demo.lib Demo.fine PyNone PyNone Demo.start)
    as (r & st' & Heq & H).
  rewrite Heq. cbn [fst]. apply List.Forall_forall. intros i Hin.
  apply H. right. exact Hin.
Defined.

(** X13.  The keyword loop pauses exactly once per keyword, whether the
    keyword's search and items went well or not; nothing else in the run
    pauses. *)
Theorem one_pause_per_keyword
        (lib : Library) (w : World) (ks : list string) (st : state) :
  sleeps (hist (for_each ks (process_keyword lib w) st).2) =
  (sleeps (hist st) + length ks)%nat.
Proof.
  revert st. induction ks as [|k ks IH]; intros st; cbn [for_each length].
  - cbn. lia.
  - destruct (process_keyword_returns lib w k st) as [st1 Hk].
    erewrite bind_run by exact Hk. rewrite IH.
    pose proof (process_keyword_sleeps lib w k st) as Hs. rewrite Hk in Hs.
    cbn [snd] in Hs. lia.
Qed.

(** X14.  When the search answers with status 200 and an empty list of
    results, or with a body that cannot be decoded, the keyword costs its
    request and the pause: nothing is fetched, stored or counted, and the
    loop goes on. *)
Theorem empty_search_result_stores_nothing
        (lib : Library) (w : World) (k : string) (st : state) (response : response) :
  http w (hist st) (search_request w k) = inr response ->
  status_code response = 200 ->
  json_items lib (content response) = Some [] \/
  json_items lib (content response) = None ->
  process_keyword lib w k st =
  (inr tt, push (EvSleep 1) (push (EvGet (search_request w k)) st)).
Proof.
  intros Hget Hstatus Hitems. rewrite process_keyword_unfold.
  unfold bind, try_except, requests_get, time_sleep, record, ret, raise.
  rewrite Hget, Hstatus. cbn [Z.eqb Pos.eqb].
  destruct Hitems as [-> | ->]; reflexivity.
Qed.

Lemma empty_search_result_stores_nothing_witness :
  process_keyword Demo.lib Demo.nothing_found bitcoin Demo.start =
  (inr tt, push (EvSleep 1)
                (push (EvGet (search_request Demo.nothing_found bitcoin)) Demo.start)).
Proof.
  apply (empty_search_result_stores_nothing Demo.lib Demo.nothing_found bitcoin
           Demo.start (mkResponse 200 (Some "application/json") "{}")).
  - reflexivity.
  - reflexivity.
  - left. reflexivity.
Defined.

(** X15.  When the search fails, the whole run is: read the clock, make
    the search request, pause, read the clock; its summary has status 200,
    a count of zero and an empty sample. *)
Theorem failed_search_gives_empty_summary
        (lib : Library) (w : World) (event context : PyValue) (st : state) :
  search_fails w bitcoin (push EvNow (mkState (hist st) [] 0)) ->
  exists r st',
    lambda_handler lib w event context st = (inr r, st') /\
    statusCode r = 200 /\ body_total_collected (body r) = 0 /\
    sample_news (body r) = [] /\
    hist st' = EvNow :: EvSleep 1 :: EvGet (search_request w bitcoin) :: EvNow :: hist st.
Proof.
  intros Hfail.
  destruct (lambda_handler_run lib w event context st) as (st2 & Hloop & Hrun).
  cbn [for_each] in Hloop.
  erewrite bind_run in Hloop by (apply process_keyword_search_fails; exact Hfail).
  injection Hloop as <-.
  eexists _, _. split; [exact Hrun|]. cbn. auto.
Qed.

Lemma failed_search_gives_empty_summary_witness :
  exists r st',
    lambda_handler Demo.lib Demo.forbidden PyNone PyNone Demo.start = (inr r, st') /\
    statusCode r = 200 /\ body_total_collected (body r) = 0 /\
    sample_news (body r) = [] /\
    hist st' = EvNow :: EvSleep 1 :: EvGet (search_request Demo.forbidden bitcoin)
                     :: EvNow :: hist Demo.start.
Proof.
  apply (failed_search_gives_empty_summary Demo.lib Demo.forbidden PyNone PyNone
                                           Demo.start).
  vm_compute. discriminate.
Defined.

(** X16.  When [put_item] raises anything but [ClientError] for an item,
    the item loop stops there: the exception leaves the loop, the items
    after it are not handled, and the variables are as before the item. *)
Theorem other_write_failure_ends_item_loop
        (lib : Library) (w : World) (k : string) (item : raw_item)
        (items : list raw_item) (st : state) :
  exists i st1,
    prepare_item lib w k item st = (inr i, st1) /\
    same_locals st st1 /\
    forall e, table_put_item w (hist st1) i = Some e ->
              (forall msg, e <> ClientError msg) ->
              for_each (item :: items) (process_item lib w k) st =
              (inl e, push (EvPutItem i) st1).
Proof.
  destruct (prepare_item_returns lib w k item st) as (i & st1 & Hprep & Hloc & _).
  exists i, st1. split; [exact Hprep|]. split; [exact Hloc|].
  intros e Hput Hne. cbn [for_each].
  erewrite bind_raise; [reflexivity|].
  rewrite (process_item_eq lib w k item st st1 i Hprep), Hput.
  destruct e as [|msg|]; [reflexivity | now destruct (Hne msg) | reflexivity].
Qed.

Lemma other_write_failure_ends_item_loop_witness :
  exists st',
    for_each [Demo.item2; Demo.item1] (process_item Demo.lib Demo.unreachable_table bitcoin)
             Demo.start = (inl OtherException, st').
Proof.
  destruct (other_write_failure_ends_item_loop Demo.lib Demo.unreachable_table bitcoin
              Demo.item2 [Demo.item1] Demo.start) as (i & st1 & _ & _ & H).
  exists (push (EvPutItem i) st1). apply H; [reflexivity | discriminate].
Defined.

(** X17.  When [put_item] accepts an item, the item is appended to the
    list of collected items, the counter goes up by one, and the loop goes
    on with the next item. *)
Theorem accepted_item_is_counted
        (lib : Library) (w : World) (k : string) (item : raw_item)
        (items : list raw_item) (st : state) :
  exists i st1,
    prepare_item lib w k item st = (inr i, st1) /\
    (table_put_item w (hist st1) i = None ->
     for_each (item :: items) (process_item lib w k) st =
     for_each items (process_item lib w k)
              (mkState (EvPutItem i :: hist st1) (collected_news st ++ [i])
                       (total_collected st + 1))).
Proof.
  destruct (prepare_item_returns lib w k item st)
    as (i & st1 & Hprep & [Hnews Htotal] & _).
  exists i, st1. split; [exact Hprep|].
  intros Hput. cbn [for_each].
  erewrite bind_run; [reflexivity|].
  rewrite (process_item_eq lib w k item st st1 i Hprep), Hput.
  unfold count_item. cbn. now rewrite Hnews, Htotal.
Qed.

Lemma accepted_item_is_counted_witness :
  exists st',
    for_each [Demo.item2; Demo.item1] (process_item Demo.lib Demo.fine bitcoin) Demo.start =
    for_each [Demo.item1] (process_item Demo.lib Demo.fine bitcoin) st' /\
    total_collected st' = 1.
Proof.
  destruct (accepted_item_is_counted Demo.lib Demo.fine bitcoin Demo.item2 [Demo.item1]
              Demo.start) as (i & st1 & _ & H).
  eexists. split; [apply H; reflexivity | reflexivity].
Defined.

Lemma download_url_uses_uid
      (lib : Library) (w : World) (image_url uid : string) (st st' : state)
      (url : string) :
  download_and_upload_image lib w image_url uid st = (inr (Some url), st') ->
  exists now ext, url = cloudfront_base ++ s3_key_for now uid ext.
Proof.
  unfold download_and_upload_image.
  unfold_monad. unfold_calls. unfold_monad.
  destruct (http w (hist st) _) as [e|response]; [discriminate|].
  destruct ((400 <=? status_code response) && (status_code response <? 600));
    [discriminate|].
  destruct (negb (Py.contains "image" _)); [discriminate|].
  cbn [hist push]. destruct (s3_put_object w _ _); [discriminate|].
  intros [= <- _]. eexists _, _. reflexivity.
Qed.

(** X18.  The CDN URL of an item, when it has one, is the CDN base
    followed by a key of the form [images/news/<y>/<m>/<d>/<uid><ext>]
    built from the item's own [uid]. *)
Theorem item_cdn_url_is_keyed_by_uid
        (lib : Library) (w : World) (k : string) (item : raw_item) (st : state) :
  exists i st',
    prepare_item lib w k item st = (inr i, st') /\
    forall url, cloudfront_image_url i = Some url ->
                exists now ext,
                  url = cloudfront_base ++ "images/news/" ++ Fmt.d (year now) ++ "/" ++
                        Fmt.d02 (month now) ++ "/" ++ Fmt.d02 (day now) ++ "/" ++
                        uid i ++ ext.
Proof.
  unfold prepare_item.
  erewrite bind_run by reflexivity.
  erewrite bind_run by reflexivity.
  cbv beta zeta.
  set (the_uid := make_uid _ _).
  lazymatch goal with
  | |- context [@bind ?A ?B ?m ?k ?s] =>
      assert (Himg : exists imgs st2,
                 m s = (inr imgs, st2) /\
                 forall url, imgs.2 = Some url ->
                             exists now ext,
                               url = cloudfront_base ++ s3_key_for now the_uid ext)
  end.
  { destruct (Py.truthy (Some _)).
    - erewrite bind_run by apply extract_image_from_article_eq.
      destruct (Py.truthy _).
      + match goal with
        | |- context [@bind ?A ?B (download_and_upload_image lib w ?u ?i) ?k ?s] =>
            destruct (download_and_upload_image_returns lib w u i s)
              as (r & st' & Heq & _)
        end.
        erewrite bind_run by exact Heq.
        eexists _, _. split; [reflexivity|]. cbn [snd].
        intros url ->. eapply download_url_uses_uid. exact Heq.
      + eexists _, _. split; [reflexivity | discriminate].
    - eexists _, _. split; [reflexivity | discriminate]. }
  destruct Himg as (imgs & st2 & Himg & Hkey).
  erewrite bind_run by exact Himg.
  erewrite bind_run by reflexivity.
  erewrite bind_run by reflexivity.
  eexists _, _. split; [reflexivity|]. cbn [cloudfront_image_url uid].
  exact Hkey.
Qed.

Lemma item_cdn_url_is_keyed_by_uid_witness :
  exists now ext,
    "https://d3nvut5aamy17o.cloudfront.net/images/news/2024/05/06/20240506_070809_12345679.png" =
    cloudfront_base ++ "images/news/" ++ Fmt.d (year now) ++ "/" ++
    Fmt.d02 (month now) ++ "/" ++ Fmt.d02 (day now) ++ "/" ++
    "20240506_070809_12345679" ++ ext.
Proof.
  destruct (item_cdn_url_is_keyed_by_uid Demo.lib Demo.fine bitcoin Demo.item1
              Demo.start) as (i & st' & Heq & H).
  vm_compute in Heq. injection Heq as <- <-.
  apply H. reflexivity.
Defined.

(** ** The [uid] *)

Section UidFacts.

Lemma string_compare_refl (s : string) : String.compare s s = Eq.
Proof.
  induction s as [|c s IH]; [reflexivity|].
  rewrite compare_cons, ascii_compare_refl. exact IH.
Qed.

Lemma append_same_prefix (a x y : string) : a ++ x = a ++ y -> x = y.
Proof.
  induction a as [|c a IH]; rewrite ?append_nil_l, ?append_cons; [trivial|].
  intros [= H]. now apply IH.
Qed.

Lemma make_uid_compare_lt (t1 t2 : datetime) (u1 u2 : Z) :
  datetime_ok t1 -> datetime_ok t2 -> earlier_second t1 t2 ->
  String.compare (make_uid t1 u1) (make_uid t2 u2) = Lt.
Proof.
  intros Hok1 Hok2 Hlt.
  destruct Hok1 as (Hy1 & Hm1 & Hd1 & HH1 & HM1 & HS1 & _).
  destruct Hok2 as (Hy2 & Hm2 & Hd2 & HH2 & HM2 & HS2 & _).
  unfold earlier_second, seconds_key in Hlt. simpl in Hlt.
  unfold make_uid, strftime_uid.
  rewrite !d_four, !d02_two by lia. rewrite !append_assoc.
  decide_field four_digits_field Hlt.
  decide_field two_digits_field Hlt.
  decide_field two_digits_field Hlt.
  rewrite compare_append_same.
  decide_field two_digits_field Hlt.
  decide_field two_digits_field Hlt.
  decide_field two_digits_field Hlt.
  contradiction.
Qed.

Lemma seconds_trichotomy (t1 t2 : datetime) :
  earlier_second t1 t2 \/ seconds_key t1 = seconds_key t2 \/ earlier_second t2 t1.
Proof.
  unfold earlier_second, seconds_key. cbn [lex_lt].
  destruct (Z.lt_trichotomy (year t1) (year t2)) as [?|[Ey|?]]; [tauto| |tauto].
  destruct (Z.lt_trichotomy (month t1) (month t2)) as [?|[Em|?]];
    [left; tauto | | right; right; right; split; [congruence | tauto]].
  destruct (Z.lt_trichotomy (day t1) (day t2)) as [?|[Ed|?]];
    [left; tauto | | right; right; right; split; [congruence|];
                     right; split; [congruence | tauto]].
  destruct (Z.lt_trichotomy (hour t1) (hour t2)) as [?|[Eh|?]];
    [left; tauto | | right; right; right; split; [congruence|];
                     right; split; [congruence|]; right; split; [congruence | tauto]].
  destruct (Z.lt_trichotomy (minute t1) (minute t2)) as [?|[Emi|?]];
    [left; tauto | | right; right; right; split; [congruence|];
                     right; split; [congruence|]; right; split; [congruence|];
                     right; split; [congruence | tauto]].
  destruct (Z.lt_trichotomy (second t1) (second t2)) as [?|[Es|?]];
    [left; tauto | | right; right; right; split; [congruence|];
                     right; split; [congruence|]; right; split; [congruence|];
                     right; split; [congruence|]; right; split; [congruence | tauto]].
  right; left. congruence.
Qed.

End UidFacts.

(** X19.  Two [uid]s are equal only when they were made in the same
    second with the same eight-character suffix: the timestamp part
    separates readings of different seconds. *)
Theorem equal_uids_share_second_and_suffix (t1 t2 : datetime) (u1 u2 : Z) :
  datetime_ok t1 -> datetime_ok t2 ->
  make_uid t1 u1 = make_uid t2 u2 ->
  seconds_key t1 = seconds_key t2 /\
  substring 0 8 (uuid_str u1) = substring 0 8 (uuid_str u2).
Proof.
  intros Hok1 Hok2 Heq.
  assert (Hcmp : String.compare (make_uid t1 u1) (make_uid t2 u2) = Eq)
    by (rewrite Heq; apply string_compare_refl).
  destruct (seconds_trichotomy t1 t2) as [Hlt | [Hkey | Hgt]].
  - rewrite (make_uid_compare_lt t1 t2 u1 u2 Hok1 Hok2 Hlt) in Hcmp. discriminate.
  - split; [exact Hkey|].
    unfold make_uid, strftime_uid in Heq. unfold seconds_key in Hkey.
    injection Hkey as Hy Hm Hd HH HM HS.
    rewrite Hy, Hm, Hd, HH, HM, HS in Heq.
    now apply append_same_prefix in Heq.
  - rewrite String.compare_antisym,
      (make_uid_compare_lt t2 t1 u2 u1 Hok2 Hok1 Hgt) in Hcmp.
    discriminate.
Qed.

Lemma equal_uids_share_second_and_suffix_witness :
  seconds_key (mkDatetime 2024 5 6 7 8 9 0) = seconds_key (mkDatetime 2024 5 6 7 8 9 500) /\
  substring 0 8 (uuid_str 0x12345678000000000000000000000000) =
  substring 0 8 (uuid_str 0x12345678ffffffffffffffffffffffff).
Proof.
  apply equal_uids_share_second_and_suffix.
  - unfold datetime_ok. simpl. lia.
  - unfold datetime_ok. simpl. lia.
  - vm_compute. reflexivity.
Defined.

(** ** [get_news_from_dynamodb] *)

Section ReadFacts.

Lemma sorted_by_uid_reverse_fixes_descending (items : list scanned_item) :
  descending items -> sorted_by_uid_reverse items = items.
Proof.
  induction items as [|x items IH]; [reflexivity|].
  intros Hdesc. cbn [sorted_by_uid_reverse foldr].
  change (foldr insert_by_uid [] items) with (sorted_by_uid_reverse items).
  destruct items as [|y items]; [reflexivity|].
  destruct Hdesc as [Hxy Hrest]. rewrite (IH Hrest).
  cbn [insert_by_uid]. now rewrite Hxy.
Qed.

End ReadFacts.

(** X20.  Whatever items the scan answers with, a successful read returns
    exactly those items, all of them and no others, greatest [uid] first,
    and reports their number. *)
Theorem read_returns_scanned_items_sorted
        (scan : nat -> string + list scanned_item) (limit : nat)
        (items : list scanned_item) :
  scan limit = inr items ->
  exists sorted_items,
    get_news_from_dynamodb scan limit = ReadOk (length items) sorted_items /\
    Permutation sorted_items items /\
    descending sorted_items.
Proof.
  intros Hscan. exists (sorted_by_uid_reverse items).
  unfold get_news_from_dynamodb. rewrite Hscan.
  split; [|split].
  - now rewrite (Permutation_length (sorted_by_uid_reverse_perm items)).
  - apply sorted_by_uid_reverse_perm.
  - apply sorted_by_uid_reverse_descending.
Qed.

Lemma read_returns_scanned_items_sorted_witness :
  exists sorted_items,
    get_news_from_dynamodb (fun _ => inr (map project Demo.table)) 10 =
      ReadOk (length (map project Demo.table)) sorted_items /\
    Permutation sorted_items (map project Demo.table) /\
    descending sorted_items.
Proof.
  apply (read_returns_scanned_items_sorted (fun _ => inr (map project Demo.table)) 10).
  reflexivity.
Defined.

(** X21.  When the scan answers with the whole table and the table holds
    no more items than the limit, the read returns the whole table, most
    recent first: here the items returned are the most recent ones. *)
Theorem read_of_whole_table_is_most_recent
        (scan : nat -> string + list scanned_item) (table : list news_item)
        (limit : nat) :
  scan limit = inr (map project table) ->
  (length table <= limit)%nat ->
  get_news_from_dynamodb scan limit = ReadOk (length table) (most_recent table limit).
Proof.
  intros Hscan Hlen. unfold get_news_from_dynamodb, most_recent. rewrite Hscan.
  assert (Hsorted : length (sorted_by_uid_reverse (map project table)) = length table)
    by (rewrite (Permutation_length (sorted_by_uid_reverse_perm _));
        apply length_map).
  rewrite take_ge by lia. now rewrite Hsorted.
Qed.

Lemma read_of_whole_table_is_most_recent_witness :
  get_news_from_dynamodb (fun _ => inr (map project Demo.table)) 5 =
  ReadOk (length Demo.table) (most_recent Demo.table 5).
Proof.
  apply (read_of_whole_table_is_most_recent (fun _ => inr (map project Demo.table))
           Demo.table 5).
  - reflexivity.
  - simpl. lia.
Defined.

(** X22.  The sort is stable and changes nothing it need not change:
    items the scan gives greatest [uid] first, ties included, are returned
    in the order of the scan. *)
Theorem read_keeps_descending_scan_order (items : list scanned_item) (limit : nat) :
  descending items ->
  get_news_from_dynamodb (fun _ => inr items) limit = ReadOk (length items) items.
Proof.
  intros Hdesc. unfold get_news_from_dynamodb.
  now rewrite (sorted_by_uid_reverse_fixes_descending items Hdesc).
Qed.

Lemma read_keeps_descending_scan_order_witness :
  get_news_from_dynamodb
    (fun _ => inr [ project (Demo.stored "20240506_070811_cccccccc");
                    mkScanned "20240506_070810_bbbbbbbb" "first" "" "" "" "" "" "" None;
                    mkScanned "20240506_070810_bbbbbbbb" "second" "" "" "" "" "" "" None ])
    10 =
  ReadOk 3 [ project (Demo.stored "20240506_070811_cccccccc");
             mkScanned "20240506_070810_bbbbbbbb" "first" "" "" "" "" "" "" None;
             mkScanned "20240506_070810_bbbbbbbb" "second" "" "" "" "" "" "" None ].
Proof.
  apply (read_keeps_descending_scan_order
           [ project (Demo.stored "20240506_070811_cccccccc");
             mkScanned "20240506_070810_bbbbbbbb" "first" "" "" "" "" "" "" None;
             mkScanned "20240506_070810_bbbbbbbb" "second" "" "" "" "" "" "" None ] 10).
  vm_compute. auto.
Defined.

(** ** [startup_event] *)

(** X23.  At startup the statistics are read only after a successful
    connection: when connecting raises, the service starts having done
    nothing else; when it succeeds, the statistics are read once, and a
    failure there does not stop the service either. *)
Theorem startup_reads_statistics_only_when_connected (w : World) (st : state) :
  (db_connect w (hist st) <> None ->
   startup_event w st = (inr tt, push EvDbConnect st)) /\
  (db_connect w (hist st) = None ->
   startup_event w st = (inr tt, push EvDbStatistics (push EvDbConnect st))).
Proof.
  unfold startup_event, db_manager_connect, db_manager_get_statistics.
  unfold_monad. split.
  - destruct (db_connect w (hist st)); [reflexivity | congruence].
  - intros ->. cbn [hist push]. destruct (db_get_statistics w _); reflexivity.
Qed.

Lemma startup_reads_statistics_only_when_connected_witness :
  startup_event Demo.misconfigured Demo.start = (inr tt, push EvDbConnect Demo.start) /\
  startup_event Demo.fine Demo.start =
    (inr tt, push EvDbStatistics (push EvDbConnect Demo.start)).
Proof.
  split.
  - apply (startup_reads_statistics_only_when_connected Demo.misconfigured Demo.start).
    discriminate.
  - apply (startup_reads_statistics_only_when_connected Demo.fine Demo.start).
    reflexivity.
Defined.

(** ** The acceptance test of the locator *)

Section Acceptance.

Lemma prefix_nil (s : string) : String.prefix "" s = true.
Proof. now destruct s. Qed.

Lemma prefix_append (p s : string) : String.prefix p (p ++ s) = true.
Proof.
  induction p as [|c p IH]; rewrite ?append_nil_l, ?append_cons.
  - apply prefix_nil.
  - cbn [String.prefix]. destruct (ascii_dec c c); [exact IH | congruence].
Qed.

Lemma contains_prefix (p s : string) : String.prefix p s = true -> Py.contains p s = true.
Proof. destruct s; cbn [Py.contains]; intros H; [exact H | now rewrite H]. Qed.

Lemma contains_append_r (p pre s : string) :
  Py.contains p s = true -> Py.contains p (pre ++ s) = true.
Proof.
  intros H. induction pre as [|c pre IH]; rewrite ?append_nil_l, ?append_cons;
    [exact H|].
  cbn [Py.contains]. rewrite IH. apply orb_true_r.
Qed.

Lemma endswith_append (p s : string) :
  Py.endswith p s = true -> exists pre, s = pre ++ p.
Proof.
  induction s as [|c s IH]; cbn [Py.endswith].
  - rewrite orb_false_r. intros H. apply String.eqb_eq in H as ->. now exists "".
  - intros H. apply orb_true_iff in H as [H | H].
    + apply String.eqb_eq in H as ->. now exists "".
    + destruct (IH H) as [pre ->]. now exists (String c pre).
Qed.

Lemma lower_append (a b : string) : Py.lower (a ++ b) = Py.lower a ++ Py.lower b.
Proof.
  induction a as [|c a IH]; rewrite ?append_nil_l, ?append_cons; [reflexivity|].
  cbn [Py.lower]. now rewrite IH.
Qed.

Lemma before_prefix (c : ascii) (s : string) : exists post, s = before c s ++ post.
Proof.
  induction s as [|a s IH]; [now exists ""|]. cbn [before].
  destruct (Ascii.eqb a c); [now exists (String a s)|].
  destruct IH as [post Hpost]. exists post. rewrite append_cons. now f_equal.
Qed.

Lemma from_slash_suffix (s : string) : exists pre, s = pre ++ from_slash s.
Proof.
  induction s as [|a s IH]; [now exists ""|]. cbn [from_slash].
  destruct (Ascii.eqb a "/"); [now exists ""|].
  destruct IH as [pre Hpre]. exists (String a pre). rewrite append_cons. now f_equal.
Qed.

Lemma substring_whole (s : string) : substring 0 (String.length s) s = s.
Proof. induction s as [|a s IH]; [reflexivity|]. cbn. now rewrite IH. Qed.

Lemma after_slashes_suffix (s r : string) :
  after_slashes s = Some r -> exists pre, s = pre ++ r.
Proof.
  induction s as [|a s IH]; [discriminate|]. cbn [after_slashes].
  destruct (Py.startswith "//" (String a s)) eqn:Hstart.
  - intros [= <-]. destruct s as [|b s].
    { unfold Py.startswith in Hstart. cbn [String.prefix] in Hstart.
      destruct (ascii_dec "/" a); discriminate Hstart. }
    exists (String a (String b "")).
    cbn [String.length substring Nat.sub]. rewrite Nat.sub_0_r.
    now rewrite substring_whole.
  - intros H. destruct (IH H) as [pre ->]. now exists (String a pre).
Qed.

(** The path is a part of the URL. *)
Lemma url_path_part (u : string) : exists pre post, u = pre ++ url_path u ++ post.
Proof.
  unfold url_path.
  destruct (before_prefix "#" u) as [post1 H1].
  destruct (before_prefix "?" (before "#" u)) as [post2 H2].
  set (u' := before "?" (before "#" u)) in *.
  assert (Hu : u = u' ++ (post2 ++ post1))
    by (rewrite H1 at 1; rewrite H2 at 1; apply append_assoc).
  destruct (after_slashes u') as [rest|] eqn:Hafter.
  - destruct (after_slashes_suffix u' rest Hafter) as [pre1 Hpre1].
    destruct (from_slash_suffix rest) as [pre2 Hpre2].
    exists (pre1 ++ pre2), (post2 ++ post1).
    rewrite Hu at 1. rewrite Hpre1 at 1. rewrite Hpre2 at 1.
    now rewrite !append_assoc.
  - exists "", (post2 ++ post1). exact Hu.
Qed.

End Acceptance.

(** X24.  Every URL whose path ends in one of the image extensions,
    letters of either case, passes the locator's test: the test on the
    whole URL accepts at least the URLs a test on the path would. *)
Theorem image_path_is_accepted (u : string) :
  path_has_image_extension u = true -> mentions_image_extension u = true.
Proof.
  intros Hpath. unfold mentions_image_extension.
  destruct u as [|c u]; [vm_compute in Hpath; discriminate Hpath|].
  cbn [String.eqb negb andb].
  unfold path_has_image_extension in Hpath.
  apply existsb_exists in Hpath as (ext & Hin & Hends).
  apply existsb_exists. exists ext. split; [exact Hin|].
  destruct (endswith_append _ _ Hends) as [pre Hpre].
  destruct (url_path_part (String c u)) as (a & b & Hu).
  rewrite Hu, !lower_append, Hpre, !append_assoc.
  apply contains_append_r, contains_append_r, contains_prefix, prefix_append.
Qed.

Lemma image_path_is_accepted_witness :
  mentions_image_extension "https://img.example.com/photos/A1.JPEG?width=640#top" = true.
Proof.
  apply (image_path_is_accepted "https://img.example.com/photos/A1.JPEG?width=640#top").
  vm_compute. reflexivity.
Defined.
